(** * LabelMed: a shallow embedding of [main.py]

    [main.py] is a small PyQt5 annotation tool.  The operator opens an
    image, clicks a center point, and saves a LabelMe-compatible JSON file
    holding one clipped 600x600 rectangle and the base64 image bytes.

    The embedding follows the source class by class:
    - Qt value classes ([QPoint], [QRect], [QPixmap]) as records over [Z];
    - [ImageLabel] as a record of its three attributes, its methods as
      functions that thread the record;
    - [MainWindow] slots as functions over the window and a [World]
      (files on disk, the operator's dialog answers, observable effects);
    - Python exceptions as the [Raise] case of [result].

    Python integers are unbounded, so all arithmetic is done in [Z]. *)

From Stdlib Require Import ZArith String Ascii List Lia Bool.
From Stdlib.Strings Require Import Byte.
From stdpp Require Import gmap strings.
Import ListNotations.
Open Scope Z_scope.

(** ** Exceptions and results *)

Inductive exn :=
| ValueError (msg : string)
| AttributeError (msg : string)
| FileNotFoundError (path : string)
| OSError (path : string).

Inductive result (A : Type) :=
| Ok (a : A)
| Raise (e : exn).
Arguments Ok {A} a.
Arguments Raise {A} e.

#[global] Instance result_ret : MRet result := fun _ a => Ok a.

#[global] Instance result_bind : MBind result := fun _ _ k r =>
  match r with
  | Ok a => k a
  | Raise e => Raise e
  end.

(** ** JSON values

    The dictionary handed to [json.dump].  Python dictionaries keep their
    insertion order, so objects are association lists.  [JFloat z] is the
    Python float whose value is the integer [z]; the only floats in the
    program are [float(i)] for a C [int] [i], which is exact. *)

#[warnings="-register-all"]
Inductive Json :=
| JNull
| JInt (z : Z)
| JFloat (z : Z)
| JStr (s : string)
| JList (items : list Json)
| JDict (fields : list (string * Json)).

Fixpoint assoc (key : string) (fields : list (string * Json)) : option Json :=
  match fields with
  | [] => None
  | (k, v) :: rest => if String.eqb k key then Some v else assoc key rest
  end.

(** [d[key]] on a JSON value; [None] when [d] is not an object or lacks
    the key. *)
Definition get (key : string) (d : Json) : option Json :=
  match d with
  | JDict fields => assoc key fields
  | _ => None
  end.

(** ** The platform: library code the program calls but does not define *)

Class Platform := {
  (** Qt's image readers: the pixel size of the raster the bytes decode
      to, or [None] when no reader accepts them. *)
  decode_image : list byte -> option (Z * Z);
  (** [json.dump(data, fp, ensure_ascii=False, indent=2)] followed by the
      UTF-8 encoding of the text. *)
  json_dump : Json -> list byte;
  (** Whether [open(path, "w")] succeeds. *)
  writable : string -> bool
}.

(** ** Qt value classes *)

Module QPoint.
Record t := mk { x : Z; y : Z }.

Definition isNull (p : t) : bool := (x p =? 0) && (y p =? 0).

(** PyQt5 gives [QPoint] a [__bool__] that is [not isNull()]. *)
Definition truthy (p : t) : bool := negb (isNull p).
End QPoint.

Module QRect.
(** Qt stores the two corners; [QRect(topLeft, bottomRight)] copies
    them and [left], [top], [right], [bottom] read them back. *)
Record t := mk { x1 : Z; y1 : Z; x2 : Z; y2 : Z }.

Definition of_points (topLeft bottomRight : QPoint.t) : t :=
  {| x1 := QPoint.x topLeft; y1 := QPoint.y topLeft;
     x2 := QPoint.x bottomRight; y2 := QPoint.y bottomRight |}.

Definition left (r : t) : Z := x1 r.
Definition top (r : t) : Z := y1 r.
Definition right (r : t) : Z := x2 r.
Definition bottom (r : t) : Z := y2 r.
End QRect.

Module QPixmap.
Record t := mk { width : Z; height : Z }.

(** The null pixmap has zero width and height. *)
Definition null : t := {| width := 0; height := 0 |}.

Definition isNull (pm : t) : bool := (width pm <=? 0) || (height pm <=? 0).

(** [QPixmap(path)]: read the file and decode it; a missing file or
    undecodable bytes give the null pixmap. *)
Definition load `{Platform} (files : gmap string (list byte))
    (path : string) : t :=
  match files !! path with
  | Some bytes =>
      match decode_image bytes with
      | Some (w, h) => {| width := w; height := h |}
      | None => null
      end
  | None => null
  end.
End QPixmap.

(** The range of a C [int], which is what [QPoint] stores. *)
Definition in_int (z : Z) : Prop := - 2 ^ 31 <= z < 2 ^ 31.

(** ** Observable effects *)

Inductive effect :=
| Critical (title text : string)
| Warning (title text : string)
| Information (title text : string)
| DrawRect (rect : QRect.t)
| JsonDump (path : string) (data : Json).

Inductive MouseButton := LeftButton | RightButton | MiddleButton.

Record QMouseEvent := { button : MouseButton; pos : QPoint.t }.

Definition is_left (b : MouseButton) : bool :=
  match b with
  | LeftButton => true
  | _ => false
  end.

(** ** class ImageLabel *)

Module ImageLabel.

Definition RECT_SIZE : Z := 600.

Record t := mk {
  _pixmap : option QPixmap.t;
  image_path : option string;
  center_point : option QPoint.t
}.

Definition __init__ : t :=
  {| _pixmap := None; image_path := None; center_point := None |}.

Definition set_pixmap (v : option QPixmap.t) (self : t) : t :=
  {| _pixmap := v; image_path := image_path self;
     center_point := center_point self |}.

Definition set_image_path (v : option string) (self : t) : t :=
  {| _pixmap := _pixmap self; image_path := v;
     center_point := center_point self |}.

Definition set_center_point (v : option QPoint.t) (self : t) : t :=
  {| _pixmap := _pixmap self; image_path := image_path self;
     center_point := v |}.

(** Truth value of [self._pixmap]: [None] is false, a pixmap object is
    true.  Only non-null pixmaps are ever stored. *)
Definition pixmap_truthy (self : t) : bool :=
  match _pixmap self with
  | Some _ => true
  | None => false
  end.

(** Truth value of [self.center_point]: [None] is false and so is the
    null point [QPoint(0, 0)]. *)
Definition center_truthy (self : t) : bool :=
  match center_point self with
  | Some p => QPoint.truthy p
  | None => false
  end.

Definition load_image `{Platform} (files : gmap string (list byte))
    (path : string) (self : t) : result unit * t :=
  let pm := QPixmap.load files path in
  if QPixmap.isNull pm then
    (Raise (ValueError ("Cannot load image: " ++ path)), self)
  else
    let self := set_pixmap (Some pm) self in
    let self := set_image_path (Some path) self in
    let self := set_center_point None self in
    (Ok tt, self).

Definition pixmap_size (self : t) : Z * Z :=
  match _pixmap self with
  | None => (0, 0)
  | Some pm => (QPixmap.width pm, QPixmap.height pm)
  end.

(** [self.center_point.x()] fails on [None]. *)
Definition _current_qrect (self : t) : result QRect.t :=
  let half := RECT_SIZE / 2 in
  match center_point self with
  | None => Raise (AttributeError "'NoneType' object has no attribute 'x'")
  | Some c =>
      let cx := QPoint.x c in
      let cy := QPoint.y c in
      let '(img_w, img_h) := pixmap_size self in
      let x1 := Z.max 0 (cx - half) in
      let y1 := Z.max 0 (cy - half) in
      let x2 := Z.min img_w (cx + half) in
      let y2 := Z.min img_h (cy + half) in
      Ok (QRect.of_points (QPoint.mk x1 y1) (QPoint.mk x2 y2))
  end.

(** The four numbers are floats in Python; each is the exact image of
    the integer given here. *)
Definition rectangle_points (self : t) : result (option (list (list Z))) :=
  if negb (center_truthy self && pixmap_truthy self) then Ok None
  else
    rect ← _current_qrect self;
    Ok (Some [[QRect.left rect; QRect.top rect];
              [QRect.right rect; QRect.bottom rect]]).

Definition mousePressEvent (event : QMouseEvent) (self : t) : t :=
  if is_left (button event) && pixmap_truthy self then
    set_center_point (Some (pos event)) self
  else self.

(** The yellow outline; the label's own painting is Qt's. *)
Definition paintEvent (self : t) : result (list effect) :=
  if center_truthy self && pixmap_truthy self then
    rect ← _current_qrect self;
    Ok [DrawRect rect]
  else Ok [].

End ImageLabel.

(** ** Standard-library helpers: [base64.b64encode] and [pathlib.Path.name] *)

Module base64.

Definition alphabet : string :=
  "ABCDEFGHIJKLMNOPQRSTUVWXYZabcdefghijklmnopqrstuvwxyz0123456789+/".

Definition digit (n : N) : ascii :=
  match String.get (N.to_nat n) alphabet with
  | Some c => c
  | None => "="%char
  end.

(** Three bytes become four digits; a tail of one or two bytes is
    padded with [=]. *)
Fixpoint b64encode (bs : list byte) : string :=
  match bs with
  | [] => EmptyString
  | [a] =>
      let a := Byte.to_N a in
      String (digit (a / 4)) (String (digit ((a mod 4) * 16)) "==")
  | [a; b] =>
      let a := Byte.to_N a in
      let b := Byte.to_N b in
      String (digit (a / 4))
        (String (digit ((a mod 4) * 16 + b / 16))
           (String (digit ((b mod 16) * 4)) "="))
  | a :: b :: c :: rest =>
      let a := Byte.to_N a in
      let b := Byte.to_N b in
      let c := Byte.to_N c in
      String (digit (a / 4))
        (String (digit ((a mod 4) * 16 + b / 16))
           (String (digit ((b mod 16) * 4 + c / 64))
              (String (digit (c mod 64)) (b64encode rest))))
  end%N.

End base64.

Module Path.

(** [s.split(sep)] for a one-character separator. *)
Fixpoint split (sep : ascii) (s : string) : list string :=
  match s with
  | EmptyString => [EmptyString]
  | String c rest =>
      if Ascii.eqb c sep then EmptyString :: split sep rest
      else
        match split sep rest with
        | [] => [String c EmptyString]
        | piece :: pieces => String c piece :: pieces
        end
  end.

(** The parts pathlib keeps of a POSIX path: empty pieces and [.] are
    dropped. *)
Definition keep (piece : string) : bool :=
  negb (String.eqb piece "") && negb (String.eqb piece ".").

Definition parts (path : string) : list string :=
  List.filter keep (split "/" path).

(** [Path(path).name]: the last part, or the empty string when the
    path has none (the root, or an empty path). *)
Definition name (path : string) : string :=
  List.last (parts path) EmptyString.

Fixpoint contains (c : ascii) (s : string) : bool :=
  match s with
  | EmptyString => false
  | String d rest => Ascii.eqb d c || contains c rest
  end.

End Path.

(** ** The world outside the process *)

Record World := {
  (** Regular files on disk, by path. *)
  files : gmap string (list byte);
  (** What the operator will pick in the file dialogs to come; the empty
      string is a cancelled dialog. *)
  answers : list string;
  (** Message boxes shown and documents dumped so far, oldest first. *)
  effects : list effect
}.

Definition emit (e : effect) (w : World) : World :=
  {| files := files w; answers := answers w; effects := effects w ++ [e] |}.

Definition write_file (path : string) (content : list byte) (w : World)
    : World :=
  {| files := <[path := content]> (files w); answers := answers w;
     effects := effects w |}.

(** A modal file dialog: returns the operator's next answer. *)
Definition dialog (w : World) : string * World :=
  match answers w with
  | [] => (EmptyString, w)
  | a :: rest =>
      (a, {| files := files w; answers := rest; effects := effects w |})
  end.

Definition getOpenFileName := dialog.
Definition getSaveFileName := dialog.

(** Truth value of a Python [str]. *)
Definition str_truthy (s : string) : bool := negb (String.eqb s "").

(** Truth value of an [Optional[List[...]]]. *)
Definition points_truthy {A} (points : option (list A)) : bool :=
  match points with
  | Some (_ :: _) => true
  | _ => false
  end.

(** ** class MainWindow *)

Module MainWindow.

Record t := mk {
  image_label : ImageLabel.t;
  image_path : option string
}.

Definition set_image_label (v : ImageLabel.t) (self : t) : t :=
  {| image_label := v; image_path := image_path self |}.

(** Only the parts of the constructor that touch the session: the
    widgets, the button row and [adjust_window_size] are geometry. *)
Definition __init__ `{Platform} (path : option string) (w : World)
    : result t :=
  let self :=
    {| image_label := ImageLabel.__init__; image_path := path |} in
  match path with
  | Some p =>
      if str_truthy p then
        match ImageLabel.load_image (files w) p (image_label self) with
        | (Ok _, label) => Ok (set_image_label label self)
        | (Raise e, _) => Raise e
        end
      else Ok self
  | None => Ok self
  end.

Definition open_image `{Platform} (self : t) (w : World)
    : result unit * t * World :=
  let '(path, w) := getOpenFileName w in
  if negb (str_truthy path) then (Ok tt, self, w)
  else
    match ImageLabel.load_image (files w) path (image_label self) with
    | (Raise (ValueError msg), label) =>
        (Ok tt, set_image_label label self,
         emit (Critical "加载失败" msg) w)
    | (Raise e, label) => (Raise e, set_image_label label self, w)
    | (Ok _, label) => (Ok tt, set_image_label label self, w)
    end.

(** The dictionary built in [save_json]. *)
Definition data (points : list (list Z)) (image_file : string)
    (img_b64 : string) (img_w img_h : Z) : Json :=
  JDict [
    ("version", JStr "5.8.3");
    ("flags", JDict []);
    ("shapes", JList [
       JDict [
         ("label", JStr "d");
         ("points", JList (List.map (fun row => JList (List.map JFloat row))
                             points));
         ("group_id", JNull);
         ("description", JStr "");
         ("shape_type", JStr "rectangle");
         ("flags", JDict []);
         ("mask", JNull)
       ]
     ]);
    ("imagePath", JStr (Path.name image_file));
    ("imageData", JStr img_b64);
    ("imageHeight", JInt img_h);
    ("imageWidth", JInt img_w)
  ]%string.

(** The save dialog's suggested file name is built from
    [image_path.split('/')] first, which needs [image_path] to be a
    string; the suggestion itself does not bind the operator. *)
Definition save_json `{Platform} (self : t) (w : World)
    : result unit * t * World :=
  let label := image_label self in
  if negb (ImageLabel.pixmap_truthy label) then
    (Ok tt, self, emit (Warning "提示" "请先打开图片！") w)
  else
    match ImageLabel.rectangle_points label with
    | Raise e => (Raise e, self, w)
    | Ok points =>
        match points with
        | None | Some [] =>
            (Ok tt, self,
             emit (Warning "提示" "请在图像上点击以选择中心点！") w)
        | Some points =>
            match ImageLabel.image_path label with
            | None =>
                (Raise (AttributeError
                          "'NoneType' object has no attribute 'split'"),
                 self, w)
            | Some image_file =>
                let '(json_path, w) := getSaveFileName w in
                if negb (str_truthy json_path) then (Ok tt, self, w)
                else
                  let '(img_w, img_h) := ImageLabel.pixmap_size label in
                  match files w !! image_file with
                  | None => (Raise (FileNotFoundError image_file), self, w)
                  | Some bytes =>
                      let img_b64 := base64.b64encode bytes in
                      let data :=
                        data points image_file img_b64 img_w img_h in
                      if negb (writable json_path) then
                        (Raise (OSError json_path), self, w)
                      else
                        let w := write_file json_path (json_dump data) w in
                        let w := emit (JsonDump json_path data) w in
                        let w :=
                          emit (Information "完成"
                                  ("标签已保存至 " ++ json_path)) w in
                        open_image self w
                  end
            end
        end
    end.

End MainWindow.

(** ** The program: [main] and the event loop *)

(** [main]: an optional image path from the command line, the window,
    then one unprompted open dialog before the event loop starts. *)
Definition main `{Platform} (argv : list string) (w : World)
    : result unit * option MainWindow.t * World :=
  let image_path :=
    match argv with
    | [_; p] => Some p
    | _ => None
    end in
  match MainWindow.__init__ image_path w with
  | Raise e => (Raise e, None, w)
  | Ok window =>
      let '(r, window, w) := MainWindow.open_image window w in
      (r, Some window, w)
  end.

(** What the event loop delivers to the window. *)
Inductive ui_input :=
| MousePress (event : QMouseEvent)
| OpenClicked
| SaveClicked
| Paint.

Definition dispatch `{Platform} (i : ui_input) (self : MainWindow.t)
    (w : World) : result unit * MainWindow.t * World :=
  match i with
  | MousePress event =>
      (Ok tt,
       MainWindow.set_image_label
         (ImageLabel.mousePressEvent event (MainWindow.image_label self)) self,
       w)
  | OpenClicked => MainWindow.open_image self w
  | SaveClicked => MainWindow.save_json self w
  | Paint =>
      match ImageLabel.paintEvent (MainWindow.image_label self) with
      | Ok drawn =>
          (Ok tt, self,
           {| files := files w; answers := answers w;
              effects := effects w ++ drawn |})
      | Raise e => (Raise e, self, w)
      end
  end.

(** Sessions the program can be in: started by [main], advanced by the
    event loop.  Between two events the disk may change under the
    program.  A slot that raises is kept as a step too: the state it
    leaves behind is the one an embedding application would see. *)
Inductive reachable `{Platform} : MainWindow.t -> World -> Prop :=
| reach_main argv w0 r window w :
    main argv w0 = (r, Some window, w) ->
    reachable window w
| reach_step i window w r window' w' :
    reachable window w ->
    dispatch i window w = (r, window', w') ->
    reachable window' w'
| reach_disk window w disk :
    reachable window w ->
    reachable window
      {| files := disk; answers := answers w; effects := effects w |}.


(** ** The save dialog's suggested path *)

Module str.

(** [s.replace(old, new)] for a non-empty [old]: occurrences are found
    from the left and do not overlap; [skip] counts the characters of a
    matched occurrence still to be dropped. *)
Fixpoint replace_from (skip : nat) (old new s : string) : string :=
  match s with
  | EmptyString => EmptyString
  | String c rest =>
      match skip with
      | S k => replace_from k old new rest
      | O =>
          if String.prefix old s then
            new ++ replace_from (String.length old - 1) old new rest
          else String c (replace_from 0 old new rest)
      end
  end.

Definition replace (old new s : string) : string := replace_from 0 old new s.

End str.

(** The stem offered for the JSON file:
    [image_path.split('/')[-1].replace('.jpg', '').replace('.png', '')]. *)
Definition suggested_stem (image_path : string) : string :=
  str.replace ".png" ""
    (str.replace ".jpg" "" (List.last (Path.split "/" image_path) EmptyString)).

(** The path the save dialog opens with. *)
Definition suggested_json_path (image_path : string) : string :=
  "/Users/manishaqian/Documents/labelPZY/d/" ++ suggested_stem image_path
    ++ ".json".

(** ** Vocabulary for the statements *)

(** The effects a call added: those of [after] beyond those of [before]. *)
Definition emitted (before after : World) : list effect :=
  drop (length (effects before)) (effects after).

(** What every session keeps true of its label: without a pixmap there
    is no path and no center; a stored pixmap is not null and comes with
    the path it was loaded from. *)
Definition label_ok (label : ImageLabel.t) : Prop :=
  match ImageLabel._pixmap label with
  | None =>
      ImageLabel.image_path label = None /\
      ImageLabel.center_point label = None
  | Some pm =>
      QPixmap.isNull pm = false /\
      exists path, ImageLabel.image_path label = Some path
  end.

(** The JSON form of the list returned by [rectangle_points]. *)
Definition json_points (points : list (list Z)) : Json :=
  JList (List.map (fun row => JList (List.map JFloat row)) points).

(** The four numbers [rectangle_points] returns for a pixmap and a
    center. *)
Definition box_points (pm : QPixmap.t) (c : QPoint.t) : list (list Z) :=
  [[Z.max 0 (QPoint.x c - 300); Z.max 0 (QPoint.y c - 300)];
   [Z.min (QPixmap.width pm) (QPoint.x c + 300);
    Z.min (QPixmap.height pm) (QPoint.y c + 300)]].

(** The world once [save_json] has written and announced document [d],
    with [rest] the dialog answers still to come. *)
Definition exported_world `{Platform} (json_path : string) (d : Json)
    (rest : list string) (w : World) : World :=
  emit (Information "完成" ("标签已保存至 " ++ json_path))
    (emit (JsonDump json_path d)
       (write_file json_path (json_dump d)
          {| files := files w; answers := rest; effects := effects w |})).

(** A platform to run the model on: files that start with the byte [P]
    decode to an 800x600 raster, every path is writable, and the dumped
    text is not looked at. *)
Definition sample_platform : Platform :=
  {| decode_image := fun bytes =>
       match bytes with
       | "P"%byte :: _ => Some (800, 600)
       | _ => None
       end;
     json_dump := fun _ => [];
     writable := fun _ => true |}.

(** The same platform with the directory [/locked/] closed to writing. *)
Definition locked_platform : Platform :=
  {| decode_image := @decode_image sample_platform;
     json_dump := @json_dump sample_platform;
     writable := fun path => negb (String.prefix "/locked/" path) |}.

Definition sample_disk : gmap string (list byte) :=
  <["/scans/knee.png"%string := ["P"; "N"; "G"]%byte]>
    (<["/scans/notes.txt"%string := ["h"; "i"]%byte]> ∅).

Definition sample_world (answers : list string) : World :=
  {| files := sample_disk; answers := answers; effects := [] |}.

Definition sample_label (center : option QPoint.t) : ImageLabel.t :=
  {| ImageLabel._pixmap := Some (QPixmap.mk 800 600);
     ImageLabel.image_path := Some "/scans/knee.png"%string;
     ImageLabel.center_point := center |}.

Definition sample_window (center : option QPoint.t) : MainWindow.t :=
  {| MainWindow.image_label := sample_label center;
     MainWindow.image_path := None |}.

(** * Properties *)

(** ** Library helpers behave as Python's *)

Example b64encode_vectors :
  base64.b64encode ["M"; "a"; "n"]%byte = "TWFu"%string /\
  base64.b64encode ["M"; "a"]%byte = "TWE="%string /\
  base64.b64encode ["M"]%byte = "TQ=="%string /\
  base64.b64encode [xff; xfe; xfd]%byte = "//79"%string /\
  base64.b64encode [] = ""%string.
Proof. repeat split; reflexivity. Qed.

Example path_name_vectors :
  Path.name "/a/b/c.png" = "c.png"%string /\
  Path.name "a/./b/." = "b"%string /\
  Path.name "/a/b/" = "b"%string /\
  Path.name "/" = ""%string.
Proof. repeat split; reflexivity. Qed.

(** ** The clipped box *)

Lemma half_extent : ImageLabel.RECT_SIZE / 2 = 300.
Proof. reflexivity. Qed.

(** The box of a label that holds both a pixmap and a center. *)
Lemma current_qrect_eq (self : ImageLabel.t) (pm : QPixmap.t) (c : QPoint.t) :
  ImageLabel._pixmap self = Some pm ->
  ImageLabel.center_point self = Some c ->
  ImageLabel._current_qrect self =
    Ok {| QRect.x1 := Z.max 0 (QPoint.x c - 300);
          QRect.y1 := Z.max 0 (QPoint.y c - 300);
          QRect.x2 := Z.min (QPixmap.width pm) (QPoint.x c + 300);
          QRect.y2 := Z.min (QPixmap.height pm) (QPoint.y c + 300) |}.
Proof.
  intros Hpm Hc.
  unfold ImageLabel._current_qrect, ImageLabel.pixmap_size.
  rewrite Hc, Hpm, half_extent. reflexivity.
Qed.

(** [rectangle_points] hands out the same four numbers, unless the
    center is the null point. *)
Lemma rectangle_points_eq (self : ImageLabel.t) (pm : QPixmap.t) (c : QPoint.t) :
  ImageLabel._pixmap self = Some pm ->
  ImageLabel.center_point self = Some c ->
  QPoint.isNull c = false ->
  ImageLabel.rectangle_points self =
    Ok (Some [[Z.max 0 (QPoint.x c - 300); Z.max 0 (QPoint.y c - 300)];
              [Z.min (QPixmap.width pm) (QPoint.x c + 300);
               Z.min (QPixmap.height pm) (QPoint.y c + 300)]]).
Proof.
  intros Hpm Hc Hnull.
  unfold ImageLabel.rectangle_points, ImageLabel.center_truthy,
    ImageLabel.pixmap_truthy, QPoint.truthy.
  rewrite Hc, Hnull, Hpm. cbn [negb andb].
  rewrite (current_qrect_eq self pm c Hpm Hc). reflexivity.
Qed.

(** A click on the very first pixel is stored but reads as false, so no
    box is handed out for it. *)
Lemma rectangle_points_origin (self : ImageLabel.t) :
  ImageLabel.center_point self = Some (QPoint.mk 0 0) ->
  ImageLabel.rectangle_points self = Ok None.
Proof.
  intros Hc. unfold ImageLabel.rectangle_points, ImageLabel.center_truthy.
  rewrite Hc. reflexivity.
Qed.

(** X4: when the center and the image size fit a C [int], so do the four
    corners: building the two [QPoint]s of the rectangle cannot overflow,
    although [cx - 300] and [cx + 300] alone may leave the range. *)
Lemma current_qrect_in_int (self : ImageLabel.t) (pm : QPixmap.t)
    (c : QPoint.t) (rect : QRect.t) :
  ImageLabel._pixmap self = Some pm ->
  ImageLabel.center_point self = Some c ->
  in_int (QPoint.x c) -> in_int (QPoint.y c) ->
  in_int (QPixmap.width pm) -> in_int (QPixmap.height pm) ->
  ImageLabel._current_qrect self = Ok rect ->
  in_int (QRect.x1 rect) /\ in_int (QRect.y1 rect) /\
  in_int (QRect.x2 rect) /\ in_int (QRect.y2 rect).
Proof.
  unfold in_int. intros Hpm Hc Hx Hy Hw Hh Hrect.
  rewrite (current_qrect_eq self pm c Hpm Hc) in Hrect.
  injection Hrect as <-. cbn [QRect.x1 QRect.y1 QRect.x2 QRect.y2]. lia.
Qed.

(** C1: for a loaded image of size (width, height) and a selected center
    (cx, cy), the computed box is exactly x1 = max(0, cx - 300),
    y1 = max(0, cy - 300), x2 = min(width, cx + 300),
    y2 = min(height, cy + 300); the half-extent is RECT_SIZE // 2 = 300. *)
Theorem current_qrect_clipped_box (pm : QPixmap.t) (path : option string)
    (cx cy : Z) :
  ImageLabel.RECT_SIZE / 2 = 300 /\
  ImageLabel._current_qrect
    {| ImageLabel._pixmap := Some pm;
       ImageLabel.image_path := path;
       ImageLabel.center_point := Some (QPoint.mk cx cy) |} =
    Ok (QRect.of_points
          (QPoint.mk (Z.max 0 (cx - 300)) (Z.max 0 (cy - 300)))
          (QPoint.mk (Z.min (QPixmap.width pm) (cx + 300))
                     (Z.min (QPixmap.height pm) (cy + 300)))).
Proof.
  split; [exact half_extent|].
  unfold ImageLabel._current_qrect, ImageLabel.pixmap_size.
  cbn [ImageLabel.center_point ImageLabel._pixmap QPoint.x QPoint.y].
  rewrite half_extent. reflexivity.
Qed.

(** C2: on a W x H image, a center with 0 <= cx <= W and 0 <= cy <= H
    gives a box with 0 <= x1 <= x2 <= W and 0 <= y1 <= y2 <= H. *)
Theorem current_qrect_within_image (self : ImageLabel.t) (pm : QPixmap.t)
    (c : QPoint.t) :
  ImageLabel._pixmap self = Some pm ->
  ImageLabel.center_point self = Some c ->
  0 <= QPoint.x c <= QPixmap.width pm ->
  0 <= QPoint.y c <= QPixmap.height pm ->
  exists rect,
    ImageLabel._current_qrect self = Ok rect /\
    0 <= QRect.x1 rect <= QRect.x2 rect /\
    QRect.x2 rect <= QPixmap.width pm /\
    0 <= QRect.y1 rect <= QRect.y2 rect /\
    QRect.y2 rect <= QPixmap.height pm.
Proof.
  intros Hpm Hc Hx Hy. eexists. split.
  - exact (current_qrect_eq self pm c Hpm Hc).
  - cbn [QRect.x1 QRect.y1 QRect.x2 QRect.y2]. lia.
Qed.

(** C4: on an 800x600 image a left click at (400,300) yields the points
    [[100,0],[700,600]], and a left click at (10,10) yields
    [[0,0],[310,310]]. *)
Theorem scenarios_A_B (path : option string) (previous : option QPoint.t) :
  let label :=
    {| ImageLabel._pixmap := Some (QPixmap.mk 800 600);
       ImageLabel.image_path := path;
       ImageLabel.center_point := previous |} in
  ImageLabel.rectangle_points
    (ImageLabel.mousePressEvent
       {| button := LeftButton; pos := QPoint.mk 400 300 |} label) =
    Ok (Some [[100; 0]; [700; 600]]) /\
  ImageLabel.rectangle_points
    (ImageLabel.mousePressEvent
       {| button := LeftButton; pos := QPoint.mk 10 10 |} label) =
    Ok (Some [[0; 0]; [310; 310]]).
Proof. split; reflexivity. Qed.

(** C5: a center at least 300 pixels from every edge
    (300 <= cx <= W - 300, 300 <= cy <= H - 300) gives x2 - x1 = 600 and
    y2 - y1 = 600. *)
Theorem current_qrect_full_size (self : ImageLabel.t) (pm : QPixmap.t)
    (c : QPoint.t) :
  ImageLabel._pixmap self = Some pm ->
  ImageLabel.center_point self = Some c ->
  300 <= QPoint.x c <= QPixmap.width pm - 300 ->
  300 <= QPoint.y c <= QPixmap.height pm - 300 ->
  exists rect,
    ImageLabel._current_qrect self = Ok rect /\
    QRect.x2 rect - QRect.x1 rect = 600 /\
    QRect.y2 rect - QRect.y1 rect = 600.
Proof.
  intros Hpm Hc Hx Hy. eexists. split.
  - exact (current_qrect_eq self pm c Hpm Hc).
  - cbn [QRect.x1 QRect.y1 QRect.x2 QRect.y2]. lia.
Qed.

(** ** More on the label: what is handed out, drawn and stored *)

(** X1: [rectangle_points] never raises.  It returns [None] exactly when
    the pixmap is missing, the center is missing, or the center is the
    null point (0, 0); otherwise it returns the four clipped corners. *)
Theorem rectangle_points_total (label : ImageLabel.t) :
  ImageLabel.rectangle_points label =
    Ok match ImageLabel._pixmap label, ImageLabel.center_point label with
       | Some pm, Some c =>
           if QPoint.isNull c then None else Some (box_points pm c)
       | _, _ => None
       end.
Proof.
  destruct (ImageLabel.center_point label) as [c|] eqn:Hc.
  - destruct (ImageLabel._pixmap label) as [pm|] eqn:Hpm.
    + destruct (QPoint.isNull c) eqn:Hnull.
      * unfold ImageLabel.rectangle_points, ImageLabel.center_truthy,
          QPoint.truthy.
        rewrite Hc, Hnull. reflexivity.
      * exact (rectangle_points_eq label pm c Hpm Hc Hnull).
    + unfold ImageLabel.rectangle_points, ImageLabel.pixmap_truthy.
      rewrite Hpm, andb_false_r. reflexivity.
  - unfold ImageLabel.rectangle_points, ImageLabel.center_truthy.
    rewrite Hc. destruct (ImageLabel._pixmap label); reflexivity.
Qed.

(** X2: [paintEvent] never raises, and the outline it draws is the box
    [rectangle_points] hands out: it draws one rectangle with those four
    corners when there is a box, and nothing when there is none. *)
Theorem paintEvent_draws_exported_box (label : ImageLabel.t) :
  match ImageLabel.rectangle_points label with
  | Ok (Some points) =>
      exists rect,
        ImageLabel.paintEvent label = Ok [DrawRect rect] /\
        points = [[QRect.left rect; QRect.top rect];
                  [QRect.right rect; QRect.bottom rect]]
  | Ok None => ImageLabel.paintEvent label = Ok []
  | Raise _ => False
  end.
Proof.
  unfold ImageLabel.rectangle_points, ImageLabel.paintEvent.
  destruct (ImageLabel.center_truthy label && ImageLabel.pixmap_truthy label)
    eqn:Hguard; cbn [negb]; [|reflexivity].
  apply andb_true_iff in Hguard as [Hcenter _].
  unfold ImageLabel.center_truthy in Hcenter.
  unfold ImageLabel._current_qrect.
  destruct (ImageLabel.center_point label) as [c|]; [|discriminate].
  destruct (ImageLabel.pixmap_size label) as [img_w img_h].
  eexists. split; reflexivity.
Qed.


(** A press with any button but the left one changes nothing. *)
Lemma mousePressEvent_other_buttons (event : QMouseEvent)
    (label : ImageLabel.t) :
  button event <> LeftButton ->
  ImageLabel.mousePressEvent event label = label.
Proof.
  intros Hbutton. unfold ImageLabel.mousePressEvent.
  destruct (button event); [destruct (Hbutton eq_refl) | reflexivity ..].
Qed.

(** X5: for a center inside the image, the box contains the center and
    neither side is longer than 600. *)
Theorem current_qrect_around_center (self : ImageLabel.t) (pm : QPixmap.t)
    (c : QPoint.t) :
  ImageLabel._pixmap self = Some pm ->
  ImageLabel.center_point self = Some c ->
  0 <= QPoint.x c <= QPixmap.width pm ->
  0 <= QPoint.y c <= QPixmap.height pm ->
  exists rect,
    ImageLabel._current_qrect self = Ok rect /\
    QRect.x1 rect <= QPoint.x c <= QRect.x2 rect /\
    QRect.y1 rect <= QPoint.y c <= QRect.y2 rect /\
    QRect.x2 rect - QRect.x1 rect <= 600 /\
    QRect.y2 rect - QRect.y1 rect <= 600.
Proof.
  intros Hpm Hc Hx Hy. eexists. split.
  - exact (current_qrect_eq self pm c Hpm Hc).
  - cbn [QRect.x1 QRect.y1 QRect.x2 QRect.y2]. lia.
Qed.


(** ** Loading an image *)

Section Session.

Context `{Platform}.

Lemma load_image_null (files : gmap string (list byte)) (path : string)
    (self : ImageLabel.t) :
  QPixmap.isNull (QPixmap.load files path) = true ->
  ImageLabel.load_image files path self =
    (Raise (ValueError ("Cannot load image: " ++ path)), self).
Proof. intros Hnull. unfold ImageLabel.load_image. rewrite Hnull. reflexivity. Qed.

Lemma load_image_inv (files : gmap string (list byte)) (path : string)
    (self self' : ImageLabel.t) (r : result unit) :
  ImageLabel.load_image files path self = (r, self') ->
  (r = Raise (ValueError ("Cannot load image: " ++ path)) /\ self' = self /\
   QPixmap.isNull (QPixmap.load files path) = true) \/
  (r = Ok tt /\
   QPixmap.isNull (QPixmap.load files path) = false /\
   self' = {| ImageLabel._pixmap := Some (QPixmap.load files path);
              ImageLabel.image_path := Some path;
              ImageLabel.center_point := None |}).
Proof.
  unfold ImageLabel.load_image.
  destruct (QPixmap.isNull (QPixmap.load files path)) eqn:Hnull;
    intros [= <- <-]; [left | right]; auto.
Qed.

(** The stored pixmap has the pixel size the file's bytes decode to. *)
Lemma load_image_decoded (files : gmap string (list byte)) (path : string)
    (self self' : ImageLabel.t) :
  ImageLabel.load_image files path self = (Ok tt, self') ->
  exists bytes width height,
    files !! path = Some bytes /\
    decode_image bytes = Some (width, height) /\
    ImageLabel.pixmap_size self' = (width, height) /\
    1 <= width /\ 1 <= height.
Proof.
  intros Hload.
  destruct (load_image_inv _ _ _ _ _ Hload) as [(Hr & _) | (_ & Hnull & ->)];
    [discriminate|].
  revert Hnull. unfold ImageLabel.pixmap_size, QPixmap.load, QPixmap.isNull.
  cbn [ImageLabel._pixmap].
  destruct (files !! path) as [bytes|] eqn:Hfile; [|discriminate].
  destruct (decode_image bytes) as [[width height]|] eqn:Hdecode;
    [|discriminate].
  cbn [QPixmap.width QPixmap.height]. intros Hnull.
  apply orb_false_iff in Hnull as [Hw%Z.leb_gt Hh%Z.leb_gt].
  exists bytes, width, height. repeat split; auto; lia.
Qed.

Lemma load_image_label_ok (files : gmap string (list byte)) (path : string)
    (self self' : ImageLabel.t) (r : result unit) :
  label_ok self ->
  ImageLabel.load_image files path self = (r, self') ->
  label_ok self'.
Proof.
  intros Hok Hload.
  destruct (load_image_inv _ _ _ _ _ Hload) as [(_ & -> & _) | (_ & Hnull & ->)];
    [exact Hok|].
  unfold label_ok. cbn [ImageLabel._pixmap ImageLabel.image_path]. eauto.
Qed.

(** C6: when the bytes at the path cannot be decoded as a raster image,
    [load_image] raises its load error and the label is exactly what it
    was: same pixmap, same image path, same center point. *)
Theorem load_image_failure_atomic (files : gmap string (list byte))
    (path : string) (bytes : list byte) (self : ImageLabel.t) :
  files !! path = Some bytes ->
  decode_image bytes = None ->
  exists self',
    ImageLabel.load_image files path self =
      (Raise (ValueError ("Cannot load image: " ++ path)), self') /\
    ImageLabel._pixmap self' = ImageLabel._pixmap self /\
    ImageLabel.image_path self' = ImageLabel.image_path self /\
    ImageLabel.center_point self' = ImageLabel.center_point self.
Proof.
  intros Hfile Hdecode. exists self. split; [|auto].
  apply load_image_null. unfold QPixmap.load.
  rewrite Hfile, Hdecode. reflexivity.
Qed.

(** The same failure seen from the Open button: the operator gets a
    message box and the window keeps its state. *)
Lemma open_image_failure (window : MainWindow.t) (w : World) (path : string)
    (rest : list string) (bytes : list byte) :
  answers w = path :: rest ->
  path <> ""%string ->
  files w !! path = Some bytes ->
  decode_image bytes = None ->
  MainWindow.open_image window w =
    (Ok tt, window,
     {| files := files w; answers := rest;
        effects := effects w ++
          [Critical "加载失败" ("Cannot load image: " ++ path)] |}).
Proof.
  intros Hans Hpath Hfile Hdecode.
  unfold MainWindow.open_image, getOpenFileName, dialog. rewrite Hans.
  unfold str_truthy. apply String.eqb_neq in Hpath. rewrite Hpath.
  cbn [negb files].
  rewrite load_image_null
    by (unfold QPixmap.load; rewrite Hfile, Hdecode; reflexivity).
  destruct window; reflexivity.
Qed.

(** ** The two slots *)

Lemma emitted_app (before after : World) (l : list effect) :
  effects after = effects before ++ l ->
  emitted before after = l.
Proof. intros Heq. unfold emitted. rewrite Heq. apply drop_app_length. Qed.

Lemma set_image_label_same (window : MainWindow.t) :
  MainWindow.set_image_label (MainWindow.image_label window) window = window.
Proof. destruct window; reflexivity. Qed.

(** [open_image] never raises and never writes: it takes one dialog
    answer, and either leaves the label alone (with a message box when a
    load failed) or installs a freshly loaded image. *)
Lemma open_image_cases (window : MainWindow.t) (w : World) :
  exists label' l,
    MainWindow.open_image window w =
      (Ok tt, MainWindow.set_image_label label' window,
       {| files := files w; answers := tail (answers w);
          effects := effects w ++ l |}) /\
    (label' = MainWindow.image_label window \/
     exists path,
       ImageLabel.load_image (files w) path (MainWindow.image_label window) =
         (Ok tt, label')) /\
    (forall p d, ~ In (JsonDump p d) l).
Proof.
  unfold MainWindow.open_image, getOpenFileName, dialog.
  destruct w as [disk ans eff]; cbn [files answers effects].
  destruct ans as [|path rest]; cbn [tail].
  - exists (MainWindow.image_label window), [].
    cbn [str_truthy String.eqb negb]. rewrite set_image_label_same, app_nil_r.
    auto.
  - destruct (str_truthy path); cbn [negb files].
    + destruct (ImageLabel.load_image disk path (MainWindow.image_label window))
        as [r label'] eqn:Hload.
      destruct (load_image_inv _ _ _ _ _ Hload)
        as [(-> & -> & _) | (-> & _ & Hlabel)].
      * eexists _, [_]. split; [reflexivity|]. split; [auto|].
        intros p d [Hin | []]. discriminate.
      * exists label', []. rewrite app_nil_r. split; [reflexivity|].
        split; [|auto]. right. exists path. rewrite Hload. reflexivity.
    + exists (MainWindow.image_label window), [].
      rewrite set_image_label_same, app_nil_r. auto.
Qed.

(** [save_json] either stops early and leaves the window and the disk
    alone, or all its prerequisites hold: it then writes the document,
    announces it, and goes on to the next open dialog. *)
Lemma save_json_cases (window : MainWindow.t) (w : World) :
  let label := MainWindow.image_label window in
  (exists r w' l,
     MainWindow.save_json window w = (r, window, w') /\
     files w' = files w /\
     effects w' = effects w ++ l /\
     (forall p d, ~ In (JsonDump p d) l)) \/
  (exists pm c image_file bytes json_path rest points d,
     ImageLabel._pixmap label = Some pm /\
     ImageLabel.center_point label = Some c /\
     QPoint.isNull c = false /\
     ImageLabel.image_path label = Some image_file /\
     answers w = json_path :: rest /\
     json_path <> ""%string /\
     files w !! image_file = Some bytes /\
     writable json_path = true /\
     ImageLabel.rectangle_points label = Ok (Some points) /\
     d = MainWindow.data points image_file (base64.b64encode bytes)
           (QPixmap.width pm) (QPixmap.height pm) /\
     MainWindow.save_json window w =
       MainWindow.open_image window
         (emit (Information "完成" ("标签已保存至 " ++ json_path))
            (emit (JsonDump json_path d)
               (write_file json_path (json_dump d)
                  {| files := files w; answers := rest;
                     effects := effects w |})))).
Proof.
  intros label. unfold MainWindow.save_json. fold label.
  assert (Hnone : forall l : list effect, l = [] ->
            forall p d, ~ In (JsonDump p d) l) by (intros l -> p d []).
  assert (Hwarn : forall t m p d, ~ In (JsonDump p d) [Warning t m])
    by (intros t m p d [Hin | []]; discriminate).
  unfold ImageLabel.pixmap_truthy.
  destruct (ImageLabel._pixmap label) as [pm|] eqn:Hpm; cbn [negb];
    [|left; eexists _, _, [_]; eauto].
  destruct (ImageLabel.center_point label) as [c|] eqn:Hc.
  2:{ left. unfold ImageLabel.rectangle_points, ImageLabel.center_truthy.
      rewrite Hc. cbn [andb negb]. eexists _, _, [_]; eauto. }
  destruct (QPoint.isNull c) eqn:Hnull.
  { left. unfold ImageLabel.rectangle_points, ImageLabel.center_truthy,
      QPoint.truthy.
    rewrite Hc, Hnull. cbn [andb negb]. eexists _, _, [_]; eauto. }
  rewrite (rectangle_points_eq label pm c Hpm Hc Hnull).
  destruct (ImageLabel.image_path label) as [image_file|] eqn:Hpath;
    [|left; eexists _, w, []; rewrite app_nil_r; eauto].
  unfold getSaveFileName, dialog.
  destruct (answers w) as [|json_path rest] eqn:Hans.
  { left. cbn [str_truthy String.eqb negb].
    eexists _, w, []; rewrite app_nil_r; eauto. }
  destruct (str_truthy json_path) eqn:Hjson; cbn [negb].
  2:{ left. eexists _, _, []. cbn [files effects]. rewrite app_nil_r. eauto. }
  unfold ImageLabel.pixmap_size. rewrite Hpm. cbn [files].
  destruct (files w !! image_file) as [bytes|] eqn:Hfile.
  2:{ left. eexists _, _, []. cbn [files effects]. rewrite app_nil_r. eauto. }
  destruct (writable json_path) eqn:Hwritable; cbn [negb].
  2:{ left. eexists _, _, []. cbn [files effects]. rewrite app_nil_r. eauto. }
  right. eexists pm, c, image_file, bytes, json_path, rest, _, _.
  repeat (split; [first [eassumption | reflexivity]|]).
  split.
  { intros ->. discriminate. }
  repeat (split; [first [eassumption | reflexivity]|]).
  reflexivity.
Qed.

(** C7: with no image loaded, [save_json] reports the missing image and
    returns at once: the window is unchanged, no dialog is consumed, no
    document is built or dumped, and the disk is untouched. *)
Theorem save_json_without_image (window : MainWindow.t) (w : World) :
  ImageLabel._pixmap (MainWindow.image_label window) = None ->
  exists w',
    MainWindow.save_json window w = (Ok tt, window, w') /\
    files w' = files w /\
    answers w' = answers w /\
    emitted w w' = [Warning "提示" "请先打开图片！"].
Proof.
  intros Hpm. eexists. split.
  - unfold MainWindow.save_json, ImageLabel.pixmap_truthy.
    rewrite Hpm. reflexivity.
  - repeat split. apply emitted_app. reflexivity.
Qed.

Lemma rectangle_points_no_center (label : ImageLabel.t) :
  ImageLabel.center_point label = None ->
  ImageLabel.rectangle_points label = Ok None.
Proof.
  intros Hnone. unfold ImageLabel.rectangle_points, ImageLabel.center_truthy.
  rewrite Hnone. reflexivity.
Qed.

Lemma save_json_no_center (window : MainWindow.t) (w : World)
    (pm : QPixmap.t) :
  ImageLabel._pixmap (MainWindow.image_label window) = Some pm ->
  ImageLabel.center_point (MainWindow.image_label window) = None ->
  MainWindow.save_json window w =
    (Ok tt, window, emit (Warning "提示" "请在图像上点击以选择中心点！") w).
Proof.
  intros Hpm Hc. unfold MainWindow.save_json, ImageLabel.pixmap_truthy.
  rewrite Hpm, (rectangle_points_no_center _ Hc). reflexivity.
Qed.

(** C8: with an image loaded and no center point, [rectangle_points]
    returns [None] and [save_json] reports the missing center and returns
    before any dialog or write; [rectangle_points] is [None] whenever the
    center point is absent, image or not. *)
Theorem save_json_without_center (window : MainWindow.t) (w : World)
    (pm : QPixmap.t) :
  ImageLabel._pixmap (MainWindow.image_label window) = Some pm ->
  ImageLabel.center_point (MainWindow.image_label window) = None ->
  (forall label : ImageLabel.t,
     ImageLabel.center_point label = None ->
     ImageLabel.rectangle_points label = Ok None) /\
  exists w',
    MainWindow.save_json window w = (Ok tt, window, w') /\
    files w' = files w /\
    answers w' = answers w /\
    emitted w w' = [Warning "提示" "请在图像上点击以选择中心点！"].
Proof.
  intros Hpm Hc. split; [exact rectangle_points_no_center|].
  eexists. split; [exact (save_json_no_center window w pm Hpm Hc)|].
  repeat split. apply emitted_app. reflexivity.
Qed.

(** Nothing but a mouse press gives the label a center point. *)
Lemma dispatch_keeps_center_absent (i : ui_input) (window window' : MainWindow.t)
    (w w' : World) (r : result unit) :
  (forall event, i <> MousePress event) ->
  ImageLabel.center_point (MainWindow.image_label window) = None ->
  dispatch i window w = (r, window', w') ->
  ImageLabel.center_point (MainWindow.image_label window') = None.
Proof.
  intros Hinput Hc.
  assert (Hopen : forall w0 r0 window0 w1,
            MainWindow.open_image window w0 = (r0, window0, w1) ->
            ImageLabel.center_point (MainWindow.image_label window0) = None).
  { intros w0 r0 window0 w1 Hstep.
    destruct (open_image_cases window w0) as (label' & l & Heq & Hlabel & _).
    rewrite Heq in Hstep. injection Hstep as _ <- _.
    cbn [MainWindow.set_image_label MainWindow.image_label].
    destruct Hlabel as [-> | (path & Hload)]; [exact Hc|].
    destruct (load_image_inv _ _ _ _ _ Hload) as [(? & _) | (_ & _ & ->)];
      [discriminate | reflexivity]. }
  destruct i as [event| | |]; cbn [dispatch].
  - destruct (Hinput event eq_refl).
  - apply Hopen.
  - destruct (save_json_cases window w)
      as [(r0 & w0 & l & Heq & _) | (? & ? & ? & ? & ? & ? & ? & ? & Heq)].
    + rewrite Heq. intros [= _ <- _]. exact Hc.
    + destruct Heq as (_ & Hsome & _). congruence.
  - destruct (ImageLabel.paintEvent (MainWindow.image_label window));
      intros [= _ <- _]; exact Hc.
Qed.

(** C10: a successful [load_image] leaves the center point absent, so a
    save right after it reports the missing center and writes nothing;
    the center stays absent, whatever else happens, until a mouse press. *)
Theorem load_image_clears_center (disk : gmap string (list byte))
    (path : string) (label label' : ImageLabel.t) :
  ImageLabel.load_image disk path label = (Ok tt, label') ->
  ImageLabel.center_point label' = None /\
  (forall (window : MainWindow.t) (w : World),
     MainWindow.image_label window = label' ->
     exists w',
       MainWindow.save_json window w = (Ok tt, window, w') /\
       files w' = files w /\
       emitted w w' = [Warning "提示" "请在图像上点击以选择中心点！"]) /\
  (forall (window window' : MainWindow.t) (w w' : World) (i : ui_input)
          (r : result unit),
     MainWindow.image_label window = label' ->
     (forall event, i <> MousePress event) ->
     dispatch i window w = (r, window', w') ->
     ImageLabel.center_point (MainWindow.image_label window') = None).
Proof.
  intros Hload.
  destruct (load_image_inv _ _ _ _ _ Hload) as [(? & _) | (_ & _ & ->)];
    [discriminate|].
  split; [reflexivity|]. split.
  - intros window w Hlabel.
    eexists. split.
    + apply (save_json_no_center window w (QPixmap.load disk path));
        rewrite Hlabel; reflexivity.
    + split; [reflexivity|]. apply emitted_app. reflexivity.
  - intros window window' w w' i r Hlabel Hinput Hstep.
    apply (dispatch_keeps_center_absent i window window' w w' r); auto.
    rewrite Hlabel. reflexivity.
Qed.

(** ** The exported document *)

Lemma split_pieces (sep : ascii) (s : string) :
  forall piece, In piece (Path.split sep s) -> Path.contains sep piece = false.
Proof.
  induction s as [|c rest IH]; cbn [Path.split].
  - intros piece [<- | []]. reflexivity.
  - destruct (Ascii.eqb c sep) eqn:Hc.
    + intros piece [<- | Hin]; [reflexivity | auto].
    + destruct (Path.split sep rest) as [|first pieces].
      * intros piece [<- | []]. cbn [Path.contains]. rewrite Hc. reflexivity.
      * intros piece [<- | Hin].
        -- cbn [Path.contains]. rewrite Hc. apply IH. left. reflexivity.
        -- apply IH. right. exact Hin.
Qed.

Lemma last_cases {A} (l : list A) (d : A) :
  List.last l d = d \/ In (List.last l d) l.
Proof.
  induction l as [|a l IH]; [left; reflexivity|].
  destruct l as [|b l]; [right; left; reflexivity|].
  change (List.last (a :: b :: l) d) with (List.last (b :: l) d).
  destruct IH as [-> | Hin]; [left; reflexivity | right; right; exact Hin].
Qed.

(** [Path(p).name] holds no separator: it is a file name with no
    directory component. *)
Lemma name_has_no_directory (path : string) :
  Path.contains "/" (Path.name path) = false.
Proof.
  unfold Path.name, Path.parts.
  destruct (last_cases (List.filter Path.keep (Path.split "/" path)) EmptyString)
    as [-> | Hin]; [reflexivity|].
  apply List.filter_In in Hin as [Hin _].
  exact (split_pieces _ _ _ Hin).
Qed.

(** When its prerequisites hold, [save_json] writes the document,
    announces it and hands over to the next open dialog. *)
Lemma save_json_ready (window : MainWindow.t) (w : World) (pm : QPixmap.t)
    (c : QPoint.t) (image_file json_path : string) (rest : list string)
    (bytes : list byte) :
  let label := MainWindow.image_label window in
  ImageLabel._pixmap label = Some pm ->
  ImageLabel.center_point label = Some c ->
  QPoint.isNull c = false ->
  ImageLabel.image_path label = Some image_file ->
  answers w = json_path :: rest ->
  json_path <> ""%string ->
  files w !! image_file = Some bytes ->
  writable json_path = true ->
  MainWindow.save_json window w =
    MainWindow.open_image window
      (exported_world json_path
         (MainWindow.data (box_points pm c) image_file
            (base64.b64encode bytes) (QPixmap.width pm) (QPixmap.height pm))
         rest w).
Proof.
  intros label Hpm Hc Hnull Hpath Hans Hjson Hfile Hwritable.
  unfold MainWindow.save_json. fold label.
  unfold ImageLabel.pixmap_truthy. rewrite Hpm. cbn [negb].
  rewrite (rectangle_points_eq label pm c Hpm Hc Hnull), Hpath.
  unfold getSaveFileName, dialog. rewrite Hans.
  unfold str_truthy. apply String.eqb_neq in Hjson. rewrite Hjson.
  cbn [negb files]. unfold ImageLabel.pixmap_size.
  rewrite Hpm, Hfile, Hwritable. reflexivity.
Qed.

Lemma save_json_exports (window : MainWindow.t) (w : World) (pm : QPixmap.t)
    (c : QPoint.t) (image_file json_path : string) (rest : list string)
    (bytes : list byte) :
  let label := MainWindow.image_label window in
  let d :=
    MainWindow.data (box_points pm c) image_file (base64.b64encode bytes)
      (QPixmap.width pm) (QPixmap.height pm) in
  ImageLabel._pixmap label = Some pm ->
  ImageLabel.center_point label = Some c ->
  QPoint.isNull c = false ->
  ImageLabel.image_path label = Some image_file ->
  answers w = json_path :: rest ->
  json_path <> ""%string ->
  files w !! image_file = Some bytes ->
  writable json_path = true ->
  exists window' w' more,
    MainWindow.save_json window w = (Ok tt, window', w') /\
    emitted w w' =
      JsonDump json_path d ::
      Information "完成" ("标签已保存至 " ++ json_path) :: more /\
    files w' = <[json_path := json_dump d]> (files w).
Proof.
  intros label d Hpm Hc Hnull Hpath Hans Hjson Hfile Hwritable.
  rewrite (save_json_ready window w pm c image_file json_path rest bytes)
    by assumption.
  fold d.
  destruct (open_image_cases window (exported_world json_path d rest w))
    as (label' & more & -> & _ & _).
  eexists _, _, more. split; [reflexivity|]. split; [|reflexivity].
  apply emitted_app. cbn [effects exported_world emit write_file].
  rewrite <- !app_assoc. reflexivity.
Qed.

(** C3: a document dumped by [save_json] has version "5.8.3" and
    exactly one shape, with the fixed label, a null group_id, an empty
    description, shape_type "rectangle", empty flags and a null mask;
    imagePath is the image's file name, free of directory separators;
    imageData is the base64 text of the image file's bytes; imageWidth
    and imageHeight are the loaded pixmap's pixel size.  The dump only
    happens with an image loaded and a center selected, and the file at
    the chosen path then holds that document. *)
Theorem save_json_document (window window' : MainWindow.t) (w w' : World)
    (r : result unit) (json_path : string) (d : Json) :
  MainWindow.save_json window w = (r, window', w') ->
  In (JsonDump json_path d) (emitted w w') ->
  let label := MainWindow.image_label window in
  exists pm c image_file bytes points shape,
    ImageLabel._pixmap label = Some pm /\
    ImageLabel.center_point label = Some c /\
    ImageLabel.image_path label = Some image_file /\
    files w !! image_file = Some bytes /\
    ImageLabel.rectangle_points label = Ok (Some points) /\
    get "version" d = Some (JStr "5.8.3") /\
    get "flags" d = Some (JDict []) /\
    get "shapes" d = Some (JList [shape]) /\
    get "label" shape = Some (JStr "d") /\
    get "points" shape = Some (json_points points) /\
    get "group_id" shape = Some JNull /\
    get "description" shape = Some (JStr "") /\
    get "shape_type" shape = Some (JStr "rectangle") /\
    get "flags" shape = Some (JDict []) /\
    get "mask" shape = Some JNull /\
    get "imagePath" d = Some (JStr (Path.name image_file)) /\
    Path.contains "/" (Path.name image_file) = false /\
    get "imageData" d = Some (JStr (base64.b64encode bytes)) /\
    get "imageWidth" d = Some (JInt (QPixmap.width pm)) /\
    get "imageHeight" d = Some (JInt (QPixmap.height pm)) /\
    files w' = <[json_path := json_dump d]> (files w).
Proof.
  intros Hsave Hin label.
  destruct (save_json_cases window w)
    as [(r0 & w0 & l & Heq & _ & Heffects & Hnone) |
        (pm & c & image_file & bytes & json_path' & rest & points & d' &
         Hpm & Hc & _ & Hpath & _ & _ & Hfile & _ & Hpoints & -> & Heq)].
  - rewrite Heq in Hsave. injection Hsave as _ _ <-.
    rewrite (emitted_app w w0 l Heffects) in Hin.
    destruct (Hnone _ _ Hin).
  - rewrite Heq in Hsave.
    match type of Hsave with
    | MainWindow.open_image _ ?w1 = _ =>
        destruct (open_image_cases window w1)
          as (label' & more & Hopen & _ & Hmore)
    end.
    rewrite Hopen in Hsave. injection Hsave as _ _ <-.
    rewrite (emitted_app w _
               (JsonDump json_path' (MainWindow.data points image_file
                  (base64.b64encode bytes) (QPixmap.width pm)
                  (QPixmap.height pm)) ::
                Information "完成" ("标签已保存至 " ++ json_path') :: more))
      in Hin
      by (cbn [effects emit write_file]; rewrite <- !app_assoc; reflexivity).
    destruct Hin as [[= <- <-] | [Hin | Hin]];
      [| discriminate | destruct (Hmore _ _ Hin)].
    eexists pm, c, image_file, bytes, points, _.
    repeat (split; [first [eassumption | reflexivity]|]).
    split; [apply name_has_no_directory|].
    repeat (split; [reflexivity|]). reflexivity.
Qed.

(** ** What every session keeps true *)

Lemma mousePressEvent_ignored (event : QMouseEvent) (label : ImageLabel.t) :
  ImageLabel._pixmap label = None ->
  ImageLabel.mousePressEvent event label = label.
Proof.
  intros Hpm. unfold ImageLabel.mousePressEvent, ImageLabel.pixmap_truthy.
  rewrite Hpm, andb_false_r. reflexivity.
Qed.

Lemma mousePressEvent_label_ok (event : QMouseEvent) (label : ImageLabel.t) :
  label_ok label -> label_ok (ImageLabel.mousePressEvent event label).
Proof.
  intros Hok. unfold ImageLabel.mousePressEvent, ImageLabel.pixmap_truthy.
  destruct (ImageLabel._pixmap label) as [pm|] eqn:Hpm;
    [|rewrite andb_false_r; exact Hok].
  destruct (is_left (button event)); [|exact Hok].
  unfold label_ok in *. cbn [andb ImageLabel.set_center_point
    ImageLabel._pixmap ImageLabel.image_path].
  rewrite Hpm in *. exact Hok.
Qed.

Lemma open_image_label_ok (window window' : MainWindow.t) (w w' : World)
    (r : result unit) :
  label_ok (MainWindow.image_label window) ->
  MainWindow.open_image window w = (r, window', w') ->
  label_ok (MainWindow.image_label window').
Proof.
  intros Hok Hstep.
  destruct (open_image_cases window w) as (label' & l & Heq & Hlabel & _).
  rewrite Heq in Hstep. injection Hstep as _ <- _.
  cbn [MainWindow.set_image_label MainWindow.image_label].
  destruct Hlabel as [-> | (path & Hload)]; [exact Hok|].
  exact (load_image_label_ok _ _ _ _ _ Hok Hload).
Qed.

Lemma save_json_label_ok (window window' : MainWindow.t) (w w' : World)
    (r : result unit) :
  label_ok (MainWindow.image_label window) ->
  MainWindow.save_json window w = (r, window', w') ->
  label_ok (MainWindow.image_label window').
Proof.
  intros Hok Hstep.
  destruct (save_json_cases window w)
    as [(r0 & w0 & l & Heq & _) |
        (? & ? & ? & ? & ? & ? & ? & ? & _ & _ & _ & _ & _ & _ & _ & _ & _ &
         _ & Heq)];
    rewrite Heq in Hstep.
  - injection Hstep as _ <- _. exact Hok.
  - exact (open_image_label_ok _ _ _ _ _ Hok Hstep).
Qed.

Lemma dispatch_label_ok (i : ui_input) (window window' : MainWindow.t)
    (w w' : World) (r : result unit) :
  label_ok (MainWindow.image_label window) ->
  dispatch i window w = (r, window', w') ->
  label_ok (MainWindow.image_label window').
Proof.
  intros Hok. destruct i as [event| | |]; cbn [dispatch].
  - intros [= _ <- _].
    cbn [MainWindow.set_image_label MainWindow.image_label].
    apply mousePressEvent_label_ok, Hok.
  - apply open_image_label_ok, Hok.
  - apply save_json_label_ok, Hok.
  - destruct (ImageLabel.paintEvent (MainWindow.image_label window));
      intros [= _ <- _]; exact Hok.
Qed.

Lemma init_label_ok : label_ok ImageLabel.__init__.
Proof. split; reflexivity. Qed.

Lemma main_label_ok (argv : list string) (w0 w : World) (r : result unit)
    (window : MainWindow.t) :
  main argv w0 = (r, Some window, w) ->
  label_ok (MainWindow.image_label window).
Proof.
  unfold main.
  destruct (MainWindow.__init__ _ w0) as [window0|e] eqn:Hinit;
    [|discriminate].
  destruct (MainWindow.open_image window0 w0) as [[r1 window1] w1] eqn:Hopen.
  intros [= _ <- _].
  apply (open_image_label_ok _ _ _ _ _) with (2 := Hopen).
  revert Hinit. unfold MainWindow.__init__.
  destruct (match argv with [_; p] => Some p | _ => None end) as [p|].
  - destruct (str_truthy p).
    + cbn [MainWindow.image_label].
      destruct (ImageLabel.load_image (files w0) p ImageLabel.__init__)
        as [[?|e] label] eqn:Hload; [|discriminate].
      intros [= <-]. cbn [MainWindow.set_image_label MainWindow.image_label].
      exact (load_image_label_ok _ _ _ _ _ init_label_ok Hload).
    + intros [= <-]. exact init_label_ok.
  - intros [= <-]. exact init_label_ok.
Qed.

Lemma reachable_label_ok (window : MainWindow.t) (w : World) :
  reachable window w -> label_ok (MainWindow.image_label window).
Proof.
  induction 1 as [argv w0 r window w Hmain
                 | i window w r window' w' _ IH Hstep
                 | window w disk _ IH].
  - exact (main_label_ok _ _ _ _ _ Hmain).
  - exact (dispatch_label_ok _ _ _ _ _ _ IH Hstep).
  - exact IH.
Qed.

(** C9: a click that arrives while no image is loaded is dropped, and
    the click handler changes the center point only when an image is
    loaded.  Hence in every reachable session a present center point
    comes with a loaded image, whose width and height are at least 1:
    the box is never computed from zero image dimensions. *)
Theorem center_needs_image (window : MainWindow.t) (w : World) :
  reachable window w ->
  (forall (event : QMouseEvent) (label : ImageLabel.t),
     ImageLabel._pixmap label = None ->
     ImageLabel.mousePressEvent event label = label) /\
  (forall (event : QMouseEvent) (label : ImageLabel.t),
     ImageLabel.center_point (ImageLabel.mousePressEvent event label) <>
       ImageLabel.center_point label ->
     exists pm, ImageLabel._pixmap label = Some pm) /\
  (forall c : QPoint.t,
     ImageLabel.center_point (MainWindow.image_label window) = Some c ->
     exists pm,
       ImageLabel._pixmap (MainWindow.image_label window) = Some pm /\
       ImageLabel.pixmap_size (MainWindow.image_label window) =
         (QPixmap.width pm, QPixmap.height pm) /\
       1 <= QPixmap.width pm /\ 1 <= QPixmap.height pm).
Proof.
  intros Hreach. split; [exact mousePressEvent_ignored|]. split.
  - intros event label Hchanged.
    destruct (ImageLabel._pixmap label) as [pm|] eqn:Hpm; [eauto|].
    rewrite (mousePressEvent_ignored event label Hpm) in Hchanged.
    destruct (Hchanged eq_refl).
  - intros c Hc. pose proof (reachable_label_ok _ _ Hreach) as Hok.
    unfold label_ok, ImageLabel.pixmap_size in *.
    destruct (ImageLabel._pixmap (MainWindow.image_label window)) as [pm|].
    + destruct Hok as [Hnull _]. exists pm. split; [reflexivity|].
      split; [reflexivity|].
      apply orb_false_iff in Hnull as [Hw%Z.leb_gt Hh%Z.leb_gt]. lia.
    + destruct Hok as [_ Hnone]. congruence.
Qed.

End Session.

(** ** More on loading and on the Open slot *)

Section Slots.

Context `{Platform}.

(** X7: [load_image] raises exactly when the path names no file, the
    bytes do not decode, or the raster has no pixels; it then raises the
    one [ValueError] and leaves the label untouched. *)
Theorem load_image_failure_cases (disk : gmap string (list byte))
    (path : string) (self self' : ImageLabel.t) (e : exn) :
  ImageLabel.load_image disk path self = (Raise e, self') ->
  e = ValueError ("Cannot load image: " ++ path) /\
  self' = self /\
  (disk !! path = None \/
   exists bytes,
     disk !! path = Some bytes /\
     (decode_image bytes = None \/
      exists width height,
        decode_image bytes = Some (width, height) /\
        (width <= 0 \/ height <= 0))).
Proof.
  intros Hload.
  destruct (load_image_inv _ _ _ _ _ Hload)
    as [(Hr & -> & Hnull) | (Hr & _)]; [|discriminate].
  injection Hr as ->. split; [reflexivity|]. split; [reflexivity|].
  revert Hnull. unfold QPixmap.load, QPixmap.isNull.
  destruct (disk !! path) as [bytes|]; [|auto].
  intros Hnull. right. exists bytes. split; [reflexivity|].
  destruct (decode_image bytes) as [[width height]|]; [|auto].
  right. exists width, height. split; [reflexivity|].
  cbn [QPixmap.width QPixmap.height] in Hnull.
  apply orb_true_iff in Hnull as [Hw%Z.leb_le | Hh%Z.leb_le]; auto.
Qed.


(** X9: the Open slot never raises, never touches the disk, never dumps
    a document and never changes the window's own [image_path]; it uses
    up exactly the one dialog answer it asked for. *)
Theorem open_image_frame (window window' : MainWindow.t) (w w' : World)
    (r : result unit) :
  MainWindow.open_image window w = (r, window', w') ->
  r = Ok tt /\
  files w' = files w /\
  answers w' = tail (answers w) /\
  MainWindow.image_path window' = MainWindow.image_path window /\
  (forall p d, ~ In (JsonDump p d) (emitted w w')).
Proof.
  intros Hopen.
  destruct (open_image_cases window w) as (label' & l & Heq & _ & Hnone).
  rewrite Heq in Hopen. injection Hopen as <- <- <-.
  repeat split.
  rewrite (emitted_app w _ l) by reflexivity. exact Hnone.
Qed.

(** X10: a cancelled open dialog (no answer, or the empty path) leaves
    the window, the disk and the screen as they were. *)
Theorem open_image_cancelled (window : MainWindow.t) (w : World) :
  (answers w = [] \/ exists rest, answers w = EmptyString :: rest) ->
  MainWindow.open_image window w =
    (Ok tt, window,
     {| files := files w; answers := tail (answers w);
        effects := effects w |}).
Proof.
  unfold MainWindow.open_image, getOpenFileName, dialog.
  intros [Hans | (rest & Hans)]; rewrite Hans; cbn [tail].
  - cbn [str_truthy String.eqb negb]. rewrite <- Hans.
    destruct w; reflexivity.
  - reflexivity.
Qed.

(** X11: when the chosen file cannot be loaded (missing, undecodable or
    empty), the Open slot swallows the [ValueError]: it shows one
    critical box with the error's text and keeps the window, with its
    image and center, exactly as it was. *)
Theorem open_image_reports_failure (window : MainWindow.t) (w : World)
    (path : string) (rest : list string) :
  answers w = path :: rest ->
  path <> ""%string ->
  QPixmap.isNull (QPixmap.load (files w) path) = true ->
  MainWindow.open_image window w =
    (Ok tt, window,
     {| files := files w; answers := rest;
        effects := effects w ++
          [Critical "加载失败" ("Cannot load image: " ++ path)] |}).
Proof.
  intros Hans Hpath Hnull.
  unfold MainWindow.open_image, getOpenFileName, dialog. rewrite Hans.
  unfold str_truthy. apply String.eqb_neq in Hpath. rewrite Hpath.
  cbn [negb files]. rewrite (load_image_null _ _ _ Hnull).
  destruct window; reflexivity.
Qed.

(** X12: when the chosen file loads, the Open slot installs it: the
    label holds the new pixmap and path and no center, nothing is shown,
    and a box selected on the previous image is gone. *)
Theorem open_image_installs (window : MainWindow.t) (w : World)
    (path : string) (rest : list string) (bytes : list byte)
    (width height : Z) :
  answers w = path :: rest ->
  path <> ""%string ->
  files w !! path = Some bytes ->
  decode_image bytes = Some (width, height) ->
  1 <= width -> 1 <= height ->
  exists window',
    MainWindow.open_image window w =
      (Ok tt, window',
       {| files := files w; answers := rest; effects := effects w |}) /\
    MainWindow.image_label window' =
      {| ImageLabel._pixmap := Some (QPixmap.mk width height);
         ImageLabel.image_path := Some path;
         ImageLabel.center_point := None |} /\
    ImageLabel.rectangle_points (MainWindow.image_label window') = Ok None.
Proof.
  intros Hans Hpath Hfile Hdecode Hw Hh.
  assert (Hload : ImageLabel.load_image (files w) path
                    (MainWindow.image_label window) =
                  (Ok tt,
                   {| ImageLabel._pixmap := Some (QPixmap.mk width height);
                      ImageLabel.image_path := Some path;
                      ImageLabel.center_point := None |})).
  { unfold ImageLabel.load_image, QPixmap.load, QPixmap.isNull.
    rewrite Hfile, Hdecode. cbn [QPixmap.width QPixmap.height].
    replace (width <=? 0) with false by (symmetry; apply Z.leb_gt; lia).
    replace (height <=? 0) with false by (symmetry; apply Z.leb_gt; lia).
    reflexivity. }
  unfold MainWindow.open_image, getOpenFileName, dialog. rewrite Hans.
  unfold str_truthy. apply String.eqb_neq in Hpath. rewrite Hpath.
  cbn [negb files]. rewrite Hload.
  eexists. split; [reflexivity|]. split; reflexivity.
Qed.

End Slots.

(** ** More on the Save slot *)

Section SaveSlot.

Context `{Platform}.

(** X13: a press at the first pixel is stored but does not count.  After
    a left press at (0, 0) on a loaded image the center point is
    [QPoint(0, 0)], yet no box is handed out, nothing is drawn, and
    saving reports that no center was selected and writes nothing. *)
Theorem origin_click_not_exported (window : MainWindow.t) (w : World)
    (pm : QPixmap.t) :
  ImageLabel._pixmap (MainWindow.image_label window) = Some pm ->
  let label :=
    ImageLabel.mousePressEvent
      {| button := LeftButton; pos := QPoint.mk 0 0 |}
      (MainWindow.image_label window) in
  let clicked := MainWindow.set_image_label label window in
  ImageLabel.center_point label = Some (QPoint.mk 0 0) /\
  ImageLabel.rectangle_points label = Ok None /\
  ImageLabel.paintEvent label = Ok [] /\
  MainWindow.save_json clicked w =
    (Ok tt, clicked,
     emit (Warning "提示" "请在图像上点击以选择中心点！") w).
Proof.
  intros Hpm label clicked.
  assert (Hlabel : label =
            ImageLabel.set_center_point (Some (QPoint.mk 0 0))
              (MainWindow.image_label window)).
  { unfold label, ImageLabel.mousePressEvent, ImageLabel.pixmap_truthy.
    rewrite Hpm. reflexivity. }
  assert (Hpoints : ImageLabel.rectangle_points label = Ok None)
    by (rewrite Hlabel; reflexivity).
  split; [rewrite Hlabel; reflexivity|]. split; [exact Hpoints|].
  split; [rewrite Hlabel; reflexivity|].
  unfold MainWindow.save_json, ImageLabel.pixmap_truthy.
  cbn [clicked MainWindow.set_image_label MainWindow.image_label].
  rewrite Hpoints, Hlabel. cbn [ImageLabel.set_center_point ImageLabel._pixmap].
  rewrite Hpm. reflexivity.
Qed.

(** X14: with a box ready, cancelling the save dialog (no answer, or the
    empty path) ends the save silently: no file is read or written, no
    box is shown, the window is unchanged. *)
Theorem save_json_cancelled (window : MainWindow.t) (w : World)
    (pm : QPixmap.t) (c : QPoint.t) (image_file : string) :
  let label := MainWindow.image_label window in
  ImageLabel._pixmap label = Some pm ->
  ImageLabel.center_point label = Some c ->
  QPoint.isNull c = false ->
  ImageLabel.image_path label = Some image_file ->
  (answers w = [] \/ exists rest, answers w = EmptyString :: rest) ->
  MainWindow.save_json window w =
    (Ok tt, window,
     {| files := files w; answers := tail (answers w);
        effects := effects w |}).
Proof.
  intros label Hpm Hc Hnull Hpath Hans.
  unfold MainWindow.save_json. fold label.
  unfold ImageLabel.pixmap_truthy. rewrite Hpm. cbn [negb].
  rewrite (rectangle_points_eq label pm c Hpm Hc Hnull), Hpath.
  unfold getSaveFileName, dialog.
  destruct Hans as [Hans | (rest & Hans)]; rewrite Hans; cbn [tail].
  - cbn [str_truthy String.eqb negb]. rewrite <- Hans.
    destruct w; reflexivity.
  - reflexivity.
Qed.

(** X15: if the image file is gone from the disk when the save reaches
    it, the save raises [FileNotFoundError] after the dialog was
    answered; nothing is written or announced and the window keeps its
    image and center. *)
Theorem save_json_image_missing (window : MainWindow.t) (w : World)
    (pm : QPixmap.t) (c : QPoint.t) (image_file json_path : string)
    (rest : list string) :
  let label := MainWindow.image_label window in
  ImageLabel._pixmap label = Some pm ->
  ImageLabel.center_point label = Some c ->
  QPoint.isNull c = false ->
  ImageLabel.image_path label = Some image_file ->
  answers w = json_path :: rest ->
  json_path <> ""%string ->
  files w !! image_file = None ->
  MainWindow.save_json window w =
    (Raise (FileNotFoundError image_file), window,
     {| files := files w; answers := rest; effects := effects w |}).
Proof.
  intros label Hpm Hc Hnull Hpath Hans Hjson Hfile.
  unfold MainWindow.save_json. fold label.
  unfold ImageLabel.pixmap_truthy. rewrite Hpm. cbn [negb].
  rewrite (rectangle_points_eq label pm c Hpm Hc Hnull), Hpath.
  unfold getSaveFileName, dialog. rewrite Hans.
  unfold str_truthy. apply String.eqb_neq in Hjson. rewrite Hjson.
  cbn [negb files]. unfold ImageLabel.pixmap_size.
  rewrite Hpm, Hfile. reflexivity.
Qed.

(** X16: if the chosen JSON path cannot be opened for writing, the save
    raises [OSError]; the image was read but nothing is written or
    announced, and the window is unchanged. *)
Theorem save_json_unwritable (window : MainWindow.t) (w : World)
    (pm : QPixmap.t) (c : QPoint.t) (image_file json_path : string)
    (rest : list string) (bytes : list byte) :
  let label := MainWindow.image_label window in
  ImageLabel._pixmap label = Some pm ->
  ImageLabel.center_point label = Some c ->
  QPoint.isNull c = false ->
  ImageLabel.image_path label = Some image_file ->
  answers w = json_path :: rest ->
  json_path <> ""%string ->
  files w !! image_file = Some bytes ->
  writable json_path = false ->
  MainWindow.save_json window w =
    (Raise (OSError json_path), window,
     {| files := files w; answers := rest; effects := effects w |}).
Proof.
  intros label Hpm Hc Hnull Hpath Hans Hjson Hfile Hwritable.
  unfold MainWindow.save_json. fold label.
  unfold ImageLabel.pixmap_truthy. rewrite Hpm. cbn [negb].
  rewrite (rectangle_points_eq label pm c Hpm Hc Hnull), Hpath.
  unfold getSaveFileName, dialog. rewrite Hans.
  unfold str_truthy. apply String.eqb_neq in Hjson. rewrite Hjson.
  cbn [negb files]. unfold ImageLabel.pixmap_size.
  rewrite Hpm, Hfile, Hwritable. reflexivity.
Qed.

(** X17: a save changes at most one file, the one the operator named in
    the save dialog: every other path holds after the call what it held
    before. *)
Theorem save_json_touches_one_file (window window' : MainWindow.t)
    (w w' : World) (r : result unit) (p : string) :
  MainWindow.save_json window w = (r, window', w') ->
  (forall rest, answers w <> p :: rest) ->
  files w' !! p = files w !! p.
Proof.
  intros Hsave Hother.
  destruct (save_json_cases window w)
    as [(r0 & w0 & l & Heq & Hfiles & _) |
        (pm & c & image_file & bytes & json_path & rest & points & d &
         _ & _ & _ & _ & Hans & _ & _ & _ & _ & _ & Heq)];
    rewrite Heq in Hsave.
  - injection Hsave as _ _ <-. rewrite Hfiles. reflexivity.
  - match type of Hsave with
    | MainWindow.open_image _ ?w1 = _ =>
        destruct (open_image_cases window w1) as (label' & more & Hopen & _)
    end.
    rewrite Hopen in Hsave. injection Hsave as _ _ <-.
    cbn [files emit write_file].
    apply lookup_insert_ne. intros ->. exact (Hother rest Hans).
Qed.

(** X18: after a document is written the save goes straight to the open
    dialog.  If that dialog is cancelled the window is exactly as before
    the save, center included, so the same box can be saved again. *)
Theorem save_json_then_cancel (window : MainWindow.t) (w : World)
    (pm : QPixmap.t) (c : QPoint.t) (image_file json_path : string)
    (bytes : list byte) :
  let label := MainWindow.image_label window in
  let d :=
    MainWindow.data (box_points pm c) image_file (base64.b64encode bytes)
      (QPixmap.width pm) (QPixmap.height pm) in
  ImageLabel._pixmap label = Some pm ->
  ImageLabel.center_point label = Some c ->
  QPoint.isNull c = false ->
  ImageLabel.image_path label = Some image_file ->
  answers w = [json_path] ->
  json_path <> ""%string ->
  files w !! image_file = Some bytes ->
  writable json_path = true ->
  MainWindow.save_json window w =
    (Ok tt, window,
     {| files := <[json_path := json_dump d]> (files w);
        answers := [];
        effects := effects w ++
          [JsonDump json_path d;
           Information "完成" ("标签已保存至 " ++ json_path)] |}).
Proof.
  intros label d Hpm Hc Hnull Hpath Hans Hjson Hfile Hwritable.
  rewrite (save_json_ready window w pm c image_file json_path [] bytes)
    by assumption.
  fold d. unfold MainWindow.open_image, getOpenFileName, dialog.
  cbn [answers exported_world emit write_file str_truthy String.eqb negb
       files effects].
  unfold exported_world, emit, write_file. cbn [files answers effects].
  rewrite <- app_assoc. reflexivity.
Qed.

(** X19: if the open dialog that follows a written document picks a
    loadable image, the window moves on to it: the new image is shown
    and no center is selected, so the next save needs a new click. *)
Theorem save_json_then_next_image (window : MainWindow.t) (w : World)
    (pm : QPixmap.t) (c : QPoint.t) (image_file json_path next : string)
    (rest : list string) (bytes next_bytes : list byte) (width height : Z) :
  let label := MainWindow.image_label window in
  let d :=
    MainWindow.data (box_points pm c) image_file (base64.b64encode bytes)
      (QPixmap.width pm) (QPixmap.height pm) in
  ImageLabel._pixmap label = Some pm ->
  ImageLabel.center_point label = Some c ->
  QPoint.isNull c = false ->
  ImageLabel.image_path label = Some image_file ->
  answers w = json_path :: next :: rest ->
  json_path <> ""%string ->
  files w !! image_file = Some bytes ->
  writable json_path = true ->
  next <> ""%string ->
  next <> json_path ->
  files w !! next = Some next_bytes ->
  decode_image next_bytes = Some (width, height) ->
  1 <= width -> 1 <= height ->
  exists window' w',
    MainWindow.save_json window w = (Ok tt, window', w') /\
    MainWindow.image_label window' =
      {| ImageLabel._pixmap := Some (QPixmap.mk width height);
         ImageLabel.image_path := Some next;
         ImageLabel.center_point := None |} /\
    answers w' = rest /\
    files w' = <[json_path := json_dump d]> (files w) /\
    emitted w w' =
      [JsonDump json_path d;
       Information "完成" ("标签已保存至 " ++ json_path)].
Proof.
  intros label d Hpm Hc Hnull Hpath Hans Hjson Hfile Hwritable
    Hnext Hdiff Hnextfile Hdecode Hw Hh.
  rewrite (save_json_ready window w pm c image_file json_path (next :: rest)
             bytes) by assumption.
  fold d. unfold MainWindow.open_image, getOpenFileName, dialog.
  unfold exported_world, emit, write_file. cbn [files answers effects].
  unfold str_truthy. apply String.eqb_neq in Hnext. rewrite Hnext.
  cbn [negb files].
  unfold ImageLabel.load_image, QPixmap.load, QPixmap.isNull.
  rewrite lookup_insert_ne by congruence.
  rewrite Hnextfile, Hdecode. cbn [QPixmap.width QPixmap.height].
  replace (width <=? 0) with false by (symmetry; apply Z.leb_gt; lia).
  replace (height <=? 0) with false by (symmetry; apply Z.leb_gt; lia).
  cbn [orb]. eexists _, _. split; [reflexivity|].
  split; [reflexivity|]. split; [reflexivity|]. split; [reflexivity|].
  apply emitted_app. cbn [effects]. rewrite <- app_assoc. reflexivity.
Qed.

(** X20: the points of every dumped document are the clipped corners of
    the stored center, [[max(0,cx-300), max(0,cy-300)],
    [min(W,cx+300), min(H,cy+300)]], and that center is never (0, 0). *)
Theorem save_json_points (window window' : MainWindow.t) (w w' : World)
    (r : result unit) (json_path : string) (d : Json) :
  MainWindow.save_json window w = (r, window', w') ->
  In (JsonDump json_path d) (emitted w w') ->
  exists pm c shape,
    ImageLabel._pixmap (MainWindow.image_label window) = Some pm /\
    ImageLabel.center_point (MainWindow.image_label window) = Some c /\
    (QPoint.x c <> 0 \/ QPoint.y c <> 0) /\
    get "shapes" d = Some (JList [shape]) /\
    get "points" shape =
      Some (JList
              [JList [JFloat (Z.max 0 (QPoint.x c - 300));
                      JFloat (Z.max 0 (QPoint.y c - 300))];
               JList [JFloat (Z.min (QPixmap.width pm) (QPoint.x c + 300));
                      JFloat (Z.min (QPixmap.height pm) (QPoint.y c + 300))]]).
Proof.
  intros Hsave Hin.
  destruct (save_json_cases window w)
    as [(r0 & w0 & l & Heq & _ & Heffects & Hnone) |
        (pm & c & image_file & bytes & json_path' & rest & points & d' &
         Hpm & Hc & Hnull & _ & _ & _ & _ & _ & Hpoints & -> & Heq)].
  - rewrite Heq in Hsave. injection Hsave as _ _ <-.
    rewrite (emitted_app w w0 l Heffects) in Hin.
    destruct (Hnone _ _ Hin).
  - rewrite Heq in Hsave.
    match type of Hsave with
    | MainWindow.open_image _ ?w1 = _ =>
        destruct (open_image_cases window w1)
          as (label' & more & Hopen & _ & Hmore)
    end.
    rewrite Hopen in Hsave. injection Hsave as _ _ <-.
    rewrite (emitted_app w _
               (JsonDump json_path' (MainWindow.data points image_file
                  (base64.b64encode bytes) (QPixmap.width pm)
                  (QPixmap.height pm)) ::
                Information "完成" ("标签已保存至 " ++ json_path') :: more))
      in Hin
      by (cbn [effects emit write_file]; rewrite <- !app_assoc; reflexivity).
    destruct Hin as [[= <- <-] | [Hin | Hin]];
      [| discriminate | destruct (Hmore _ _ Hin)].
    rewrite (rectangle_points_eq _ pm c Hpm Hc Hnull) in Hpoints.
    injection Hpoints as <-.
    exists pm, c. eexists. split; [exact Hpm|]. split; [exact Hc|].
    split; [|split; reflexivity].
    unfold QPoint.isNull in Hnull.
    apply andb_false_iff in Hnull as [Hx%Z.eqb_neq | Hy%Z.eqb_neq]; auto.
Qed.

End SaveSlot.

(** ** Start-up and whole sessions *)

Section Startup.

Context `{Platform}.

(** X21: in every reachable session the label holds an image path
    exactly when it holds a pixmap, so the Save slot never fails on a
    missing attribute: whatever the world, it returns normally or raises
    [FileNotFoundError] for the image or [OSError] for the target. *)
Theorem save_json_errors (window : MainWindow.t) (w : World) :
  reachable window w ->
  (ImageLabel._pixmap (MainWindow.image_label window) = None <->
   ImageLabel.image_path (MainWindow.image_label window) = None) /\
  (forall (w0 w' : World) (r : result unit) (window' : MainWindow.t),
     MainWindow.save_json window w0 = (r, window', w') ->
     r = Ok tt \/
     (exists image_file,
        ImageLabel.image_path (MainWindow.image_label window) =
          Some image_file /\
        r = Raise (FileNotFoundError image_file)) \/
     (exists json_path, r = Raise (OSError json_path))).
Proof.
  intros Hreach. pose proof (reachable_label_ok _ _ Hreach) as Hok.
  unfold label_ok in Hok. split.
  - destruct (ImageLabel._pixmap (MainWindow.image_label window)) as [pm|].
    + destruct Hok as (_ & path & ->). split; discriminate.
    + destruct Hok as [-> _]. split; reflexivity.
  - intros w0 w' r window'. unfold MainWindow.save_json.
    set (label := MainWindow.image_label window) in *.
    unfold ImageLabel.pixmap_truthy.
    destruct (ImageLabel._pixmap label) as [pm|] eqn:Hpm; cbn [negb];
      [|intros [= <- _ _]; auto].
    destruct Hok as (_ & image_file & Hpath).
    destruct (ImageLabel.center_point label) as [c|] eqn:Hc;
      [|rewrite (rectangle_points_no_center _ Hc); intros [= <- _ _]; auto].
    destruct (QPoint.isNull c) eqn:Hnull.
    { unfold ImageLabel.rectangle_points, ImageLabel.center_truthy,
        QPoint.truthy.
      rewrite Hc, Hnull. cbn [negb andb]. intros [= <- _ _]. auto. }
    rewrite (rectangle_points_eq label pm c Hpm Hc Hnull), Hpath.
    destruct (getSaveFileName w0) as [json_path w1].
    destruct (str_truthy json_path); cbn [negb];
      [|intros [= <- _ _]; auto].
    destruct (ImageLabel.pixmap_size label) as [img_w img_h].
    destruct (files w1 !! image_file) as [bytes|];
      [|intros [= <- _ _]; right; left; eauto].
    destruct (writable json_path); cbn [negb];
      [|intros [= <- _ _]; right; right; eauto].
    intros Hopen.
    match type of Hopen with
    | MainWindow.open_image _ ?w2 = _ =>
        destruct (open_image_cases window w2) as (label' & l & Heq & _)
    end.
    rewrite Heq in Hopen. injection Hopen as <- _ _. auto.
Qed.

(** X22: an image path on the command line that cannot be loaded stops
    the program at start-up: the [ValueError] of [load_image] leaves the
    constructor uncaught, no window exists, and no dialog or message box
    was shown.  (The same file picked in the open dialog only brings up
    a message box.) *)
Theorem main_preload_failure (prog path : string) (w : World) :
  path <> ""%string ->
  QPixmap.isNull (QPixmap.load (files w) path) = true ->
  main [prog; path] w =
    (Raise (ValueError ("Cannot load image: " ++ path)), None, w).
Proof.
  intros Hpath Hnull. unfold main, MainWindow.__init__, str_truthy.
  apply String.eqb_neq in Hpath. rewrite Hpath. cbn [negb].
  rewrite (load_image_null _ _ _ Hnull). reflexivity.
Qed.

(** X23: the image path is taken from the command line only when there
    is exactly one argument.  With none, or with two or more, nothing is
    preloaded; if the first open dialog is then cancelled the session
    starts with an empty label, and saving reports that no image is
    open. *)
Theorem main_starts_empty (argv : list string) (w : World) :
  length argv <> 2%nat ->
  (answers w = [] \/ exists rest, answers w = EmptyString :: rest) ->
  let window :=
    {| MainWindow.image_label := ImageLabel.__init__;
       MainWindow.image_path := None |} in
  let started :=
    {| files := files w; answers := tail (answers w);
       effects := effects w |} in
  main argv w = (Ok tt, Some window, started) /\
  MainWindow.save_json window started =
    (Ok tt, window, emit (Warning "提示" "请先打开图片！") started).
Proof.
  intros Hlen Hans window started.
  assert (Hnone : match argv with [_; p] => Some p | _ => None end = None).
  { destruct argv as [|a [|b [|c argv]]]; try reflexivity.
    destruct (Hlen eq_refl). }
  split; [|reflexivity].
  unfold main. rewrite Hnone. cbn [MainWindow.__init__].
  fold window.
  unfold MainWindow.open_image, getOpenFileName, dialog.
  destruct Hans as [Hans | (rest & Hans)]; unfold started; rewrite Hans;
    cbn [tail str_truthy String.eqb negb]; [|reflexivity].
  rewrite <- Hans. destruct w; reflexivity.
Qed.

(** X24: with a loadable image as the one argument and the first open
    dialog cancelled, the session starts with that image shown, no
    center selected, and the window remembering the path it was given. *)
Theorem main_preloads (prog path : string) (w : World) (bytes : list byte)
    (width height : Z) :
  path <> ""%string ->
  files w !! path = Some bytes ->
  decode_image bytes = Some (width, height) ->
  1 <= width -> 1 <= height ->
  (answers w = [] \/ exists rest, answers w = EmptyString :: rest) ->
  main [prog; path] w =
    (Ok tt,
     Some {| MainWindow.image_label :=
               {| ImageLabel._pixmap := Some (QPixmap.mk width height);
                  ImageLabel.image_path := Some path;
                  ImageLabel.center_point := None |};
             MainWindow.image_path := Some path |},
     {| files := files w; answers := tail (answers w);
        effects := effects w |}).
Proof.
  intros Hpath Hfile Hdecode Hw Hh Hans.
  unfold main, MainWindow.__init__, str_truthy.
  apply String.eqb_neq in Hpath. rewrite Hpath. cbn [negb].
  unfold ImageLabel.load_image, QPixmap.load, QPixmap.isNull.
  rewrite Hfile, Hdecode. cbn [QPixmap.width QPixmap.height].
  replace (width <=? 0) with false by (symmetry; apply Z.leb_gt; lia).
  replace (height <=? 0) with false by (symmetry; apply Z.leb_gt; lia).
  cbn [orb MainWindow.image_label ImageLabel.set_pixmap
       ImageLabel.set_image_path ImageLabel.set_center_point
       ImageLabel._pixmap ImageLabel.image_path ImageLabel.center_point
       ImageLabel.__init__ MainWindow.set_image_label
       MainWindow.image_path].
  unfold MainWindow.open_image, getOpenFileName, dialog.
  destruct Hans as [Hans | (rest & Hans)]; rewrite Hans;
    cbn [tail str_truthy String.eqb negb]; [|reflexivity].
  rewrite <- Hans. destruct w; reflexivity.
Qed.

End Startup.

(** ** File names: [Path.name] and the suggested JSON path *)

Lemma split_nonempty (sep : ascii) (s : string) : Path.split sep s <> [].
Proof.
  destruct s as [|c rest]; cbn [Path.split]; [discriminate|].
  destruct (Ascii.eqb c sep); [discriminate|].
  destruct (Path.split sep rest); discriminate.
Qed.

Lemma append_cons (c : ascii) (a b : string) :
  (String c a ++ b)%string = String c (a ++ b).
Proof. reflexivity. Qed.

Lemma append_empty_l (s : string) : ("" ++ s)%string = s.
Proof. reflexivity. Qed.

Lemma append_empty_r (s : string) : (s ++ "")%string = s.
Proof.
  induction s as [|c s IH]; [reflexivity|].
  rewrite append_cons, IH. reflexivity.
Qed.

Lemma split_app (sep : ascii) (a b : string) :
  Path.split sep (a ++ String sep b) = Path.split sep a ++ Path.split sep b.
Proof.
  induction a as [|c a IH].
  - rewrite append_empty_l. cbn [Path.split].
    rewrite Ascii.eqb_refl. reflexivity.
  - rewrite append_cons. cbn [Path.split].
    rewrite IH. destruct (Ascii.eqb c sep); [reflexivity|].
    pose proof (split_nonempty sep a) as Hne.
    destruct (Path.split sep a) as [|piece pieces]; [destruct (Hne eq_refl)|].
    reflexivity.
Qed.

Lemma split_single (sep : ascii) (s : string) :
  Path.contains sep s = false -> Path.split sep s = [s].
Proof.
  induction s as [|c s IH]; cbn [Path.contains Path.split]; [reflexivity|].
  intros [Hc Hs]%orb_false_iff. rewrite Hc, (IH Hs). reflexivity.
Qed.

Lemma contains_app (c : ascii) (a b : string) :
  Path.contains c (a ++ b) = Path.contains c a || Path.contains c b.
Proof.
  induction a as [|d a IH]; [reflexivity|].
  rewrite append_cons. cbn [Path.contains].
  rewrite IH, orb_assoc. reflexivity.
Qed.

(** Text without a dot is copied as it is when the pattern starts with a
    dot. *)
Lemma replace_skips_dotless (old new s t : string) :
  Path.contains "." s = false ->
  str.replace (String "." old) new (s ++ t) =
    (s ++ str.replace (String "." old) new t)%string.
Proof.
  unfold str.replace.
  induction s as [|c s IH]; [reflexivity|].
  rewrite !append_cons. cbn [Path.contains].
  intros [Hc Hs]%orb_false_iff.
  cbn [str.replace_from String.prefix].
  destruct (ascii_dec "." c) as [<- | _]; [discriminate|].
  rewrite (IH Hs). reflexivity.
Qed.

(** Deleting occurrences brings in no new character. *)
Lemma replace_from_contains (c : ascii) (old s : string) :
  forall skip,
    Path.contains c (str.replace_from skip old "" s) = true ->
    Path.contains c s = true.
Proof.
  induction s as [|d s IH]; intros skip; cbn [str.replace_from];
    [discriminate|].
  cbn [Path.contains]. destruct skip as [|k].
  - destruct (String.prefix old (String d s)).
    + rewrite append_empty_l. intros Hin. rewrite (IH _ Hin).
      apply orb_true_r.
    + cbn [Path.contains]. intros [-> | Hin]%orb_true_iff; [reflexivity|].
      rewrite (IH _ Hin). apply orb_true_r.
  - intros Hin. rewrite (IH _ Hin). apply orb_true_r.
Qed.

(** X25: for an image path [dir/file] whose last part [file] holds no
    slash and is neither empty nor a single dot, [Path.name] is [file]:
    the document's imagePath is the text after the last slash. *)
Theorem name_is_last_component (dir file : string) :
  Path.contains "/" file = false ->
  file <> ""%string ->
  file <> "."%string ->
  Path.name (dir ++ "/" ++ file) = file.
Proof.
  intros Hslash Hempty Hdot. unfold Path.name, Path.parts.
  change (dir ++ "/" ++ file)%string with (dir ++ String "/" file)%string.
  rewrite split_app, (split_single _ _ Hslash), List.filter_app.
  cbn [List.filter]. unfold Path.keep at 2.
  apply String.eqb_neq in Hempty, Hdot. rewrite Hempty, Hdot. cbn [negb andb].
  apply List.last_last.
Qed.

(** X26: for an image [dir/stem.png] or [dir/stem.jpg] whose stem holds
    no slash and no dot, the save dialog opens on
    [/Users/manishaqian/Documents/labelPZY/d/stem.json]. *)
Theorem suggested_json_path_plain (dir stem ext : string) :
  Path.contains "/" stem = false ->
  Path.contains "." stem = false ->
  ext = ".png"%string \/ ext = ".jpg"%string ->
  suggested_json_path (dir ++ "/" ++ stem ++ ext) =
    ("/Users/manishaqian/Documents/labelPZY/d/" ++ stem ++ ".json")%string.
Proof.
  intros Hslash Hdot Hext.
  unfold suggested_json_path, suggested_stem.
  change (dir ++ "/" ++ stem ++ ext)%string
    with (dir ++ String "/" (stem ++ ext))%string.
  assert (Hname : Path.contains "/" (stem ++ ext) = false)
    by (rewrite contains_app, Hslash; destruct Hext as [-> | ->]; reflexivity).
  rewrite split_app, (split_single _ _ Hname), List.last_last.
  rewrite (replace_skips_dotless "jpg" "" stem ext Hdot).
  destruct Hext as [-> | ->].
  - change (str.replace ".jpg" "" ".png") with ".png"%string.
    rewrite (replace_skips_dotless "png" "" stem ".png" Hdot).
    change (str.replace ".png" "" ".png") with ""%string.
    rewrite append_empty_r. reflexivity.
  - change (str.replace ".jpg" "" ".jpg") with ""%string.
    rewrite append_empty_r.
    rewrite <- (append_empty_r stem) at 1.
    rewrite (replace_skips_dotless "png" "" stem "" Hdot).
    change (str.replace ".png" "" "") with ""%string.
    rewrite append_empty_r. reflexivity.
Qed.

(** X27: whatever the image path, the suggested stem holds no slash, so
    the suggestion always lies directly in the fixed directory. *)
Theorem suggested_stem_no_slash (image_path : string) :
  Path.contains "/" (suggested_stem image_path) = false.
Proof.
  unfold suggested_stem, str.replace.
  destruct (Path.contains "/" (str.replace_from 0 ".png" ""
              (str.replace_from 0 ".jpg" ""
                 (List.last (Path.split "/" image_path) EmptyString))))
    eqn:Hin; [|reflexivity].
  apply replace_from_contains, replace_from_contains in Hin.
  destruct (last_cases (Path.split "/" image_path) EmptyString)
    as [Heq | Hlast].
  - rewrite Heq in Hin. discriminate.
  - rewrite (split_pieces _ _ _ Hlast) in Hin. discriminate.
Qed.

(** ** The embedded image *)

Lemma digit_position (m : nat) :
  (m < 64)%nat ->
  String.index 0 (String (base64.digit (N.of_nat m)) "") base64.alphabet =
    Some m.
Proof.
  intros Hm.
  do 64 (destruct m as [|m]; [vm_compute; reflexivity|]). lia.
Qed.

Lemma digit_inj (m n : N) :
  (m < 64)%N -> (n < 64)%N -> base64.digit m = base64.digit n -> m = n.
Proof.
  intros Hm Hn Heq.
  pose proof (digit_position (N.to_nat m) ltac:(lia)) as Pm.
  pose proof (digit_position (N.to_nat n) ltac:(lia)) as Pn.
  rewrite N2Nat.id in Pm, Pn. rewrite Heq in Pm.
  assert (N.to_nat m = N.to_nat n) by congruence. lia.
Qed.

Lemma digit_not_pad (m : N) : (m < 64)%N -> base64.digit m <> "="%char.
Proof.
  intros Hm Heq.
  pose proof (digit_position (N.to_nat m) ltac:(lia)) as Pm.
  rewrite N2Nat.id, Heq in Pm. vm_compute in Pm. discriminate.
Qed.

Lemma byte_inj (a b : byte) : Byte.to_N a = Byte.to_N b -> a = b.
Proof.
  intros Heq. pose proof (Byte.of_to_N a) as Ha.
  rewrite Heq, Byte.of_to_N in Ha. congruence.
Qed.

(** Groups of three bytes at a time. *)
Lemma list_ind3 {A} (P : list A -> Prop) :
  P [] -> (forall a, P [a]) -> (forall a b, P [a; b]) ->
  (forall a b c l, P l -> P (a :: b :: c :: l)) ->
  forall l, P l.
Proof.
  intros H0 H1 H2 H3.
  assert (Hall : forall l, P l /\ (forall a, P (a :: l)) /\
                           (forall a b, P (a :: b :: l))).
  { induction l as [|c l (IH0 & IH1 & IH2)]; [auto|].
    split; [apply IH1|]. split; [intros a; apply IH2|].
    intros a b. apply H3, IH0. }
  intros l. apply Hall.
Qed.

Ltac byte_bounds :=
  repeat match goal with
  | b : byte |- _ =>
      lazymatch goal with
      | _ : (Byte.to_N b <= 255)%N |- _ => fail
      | _ => pose proof (Byte.to_N_bounded b)
      end
  end.

(** Names the quotient and remainder of [x] by [k], with their defining
    facts, so that linear arithmetic can use them. *)
Ltac divmod x k :=
  let q := fresh "q" in
  let r := fresh "r" in
  pose proof (N.div_mod' x k);
  pose proof (N.mod_lt x k ltac:(discriminate));
  set (q := N.div x k) in *; set (r := N.modulo x k) in *;
  clearbody q r.

Lemma quad_inj (a b c a' b' c' : N) :
  (a <= 255 -> b <= 255 -> c <= 255 -> a' <= 255 -> b' <= 255 -> c' <= 255 ->
   a / 4 = a' / 4 ->
   (a mod 4) * 16 + b / 16 = (a' mod 4) * 16 + b' / 16 ->
   (b mod 16) * 4 + c / 64 = (b' mod 16) * 4 + c' / 64 ->
   c mod 64 = c' mod 64 ->
   a = a' /\ b = b' /\ c = c')%N.
Proof.
  intros.
  divmod a 4%N. divmod a' 4%N. divmod b 16%N. divmod b' 16%N.
  divmod c 64%N. divmod c' 64%N. lia.
Qed.

Lemma chunk_bounds (a b c : N) :
  (a <= 255 -> b <= 255 -> c <= 255 ->
   a / 4 < 64 /\ (a mod 4) * 16 + b / 16 < 64 /\
   (b mod 16) * 4 + c / 64 < 64 /\ c mod 64 < 64)%N.
Proof.
  intros. divmod a 4%N. divmod b 16%N. divmod c 64%N. lia.
Qed.

(** A digit in the place where the other text has its padding. *)
Lemma pad_third (b c : byte) :
  base64.digit ((Byte.to_N b mod 16) * 4 + Byte.to_N c / 64) <> "="%char /\
  base64.digit ((Byte.to_N b mod 16) * 4) <> "="%char /\
  base64.digit (Byte.to_N c mod 64) <> "="%char.
Proof.
  pose proof (Byte.to_N_bounded b). pose proof (Byte.to_N_bounded c).
  destruct (chunk_bounds 0 (Byte.to_N b) (Byte.to_N c)) as (_ & _ & H3 & H4);
    try lia.
  destruct (chunk_bounds 0 (Byte.to_N b) 0) as (_ & _ & H3' & _); try lia.
  change (0 / 64)%N with 0%N in H3'. rewrite N.add_0_r in H3'.
  repeat split; apply digit_not_pad; assumption.
Qed.

Lemma chunk_inj (a b c a' b' c' : byte) :
  base64.digit (Byte.to_N a / 4) = base64.digit (Byte.to_N a' / 4) ->
  base64.digit ((Byte.to_N a mod 4) * 16 + Byte.to_N b / 16) =
    base64.digit ((Byte.to_N a' mod 4) * 16 + Byte.to_N b' / 16) ->
  base64.digit ((Byte.to_N b mod 16) * 4 + Byte.to_N c / 64) =
    base64.digit ((Byte.to_N b' mod 16) * 4 + Byte.to_N c' / 64) ->
  base64.digit (Byte.to_N c mod 64) = base64.digit (Byte.to_N c' mod 64) ->
  a = a' /\ b = b' /\ c = c'.
Proof.
  intros H1 H2 H3 H4. byte_bounds.
  destruct (chunk_bounds (Byte.to_N a) (Byte.to_N b) (Byte.to_N c))
    as (B1 & B2 & B3 & B4); try assumption.
  destruct (chunk_bounds (Byte.to_N a') (Byte.to_N b') (Byte.to_N c'))
    as (B1' & B2' & B3' & B4'); try assumption.
  apply digit_inj in H1, H2, H3, H4; try assumption.
  destruct (quad_inj (Byte.to_N a) (Byte.to_N b) (Byte.to_N c)
              (Byte.to_N a') (Byte.to_N b') (Byte.to_N c'))
    as (Ha & Hb & Hc); try assumption.
  auto using byte_inj.
Qed.

Lemma chunk_inj2 (a b a' b' : byte) :
  base64.digit (Byte.to_N a / 4) = base64.digit (Byte.to_N a' / 4) ->
  base64.digit ((Byte.to_N a mod 4) * 16 + Byte.to_N b / 16) =
    base64.digit ((Byte.to_N a' mod 4) * 16 + Byte.to_N b' / 16) ->
  base64.digit ((Byte.to_N b mod 16) * 4) =
    base64.digit ((Byte.to_N b' mod 16) * 4) ->
  a = a' /\ b = b'.
Proof.
  intros H1 H2 H3.
  destruct (chunk_inj a b x00 a' b' x00) as (-> & -> & _); auto.
  change (Byte.to_N x00 / 64)%N with 0%N. rewrite !N.add_0_r. exact H3.
Qed.

Lemma chunk_inj1 (a a' : byte) :
  base64.digit (Byte.to_N a / 4) = base64.digit (Byte.to_N a' / 4) ->
  base64.digit ((Byte.to_N a mod 4) * 16) =
    base64.digit ((Byte.to_N a' mod 4) * 16) ->
  a = a'.
Proof.
  intros H1 H2.
  destruct (chunk_inj2 a x00 a' x00) as (-> & _); auto.
  change (Byte.to_N x00 / 16)%N with 0%N. rewrite !N.add_0_r. exact H2.
Qed.

(** X28: [b64encode] is injective: the imageData text of a document
    determines the bytes of the image file it was made from. *)
Theorem b64encode_inj (bs bs' : list byte) :
  base64.b64encode bs = base64.b64encode bs' -> bs = bs'.
Proof.
  revert bs'. induction bs as [|a|a b|a b c bs IH] using list_ind3;
    intros bs'; destruct bs' as [|a' [|b' [|c' bs']]];
    cbn [base64.b64encode]; intros Heq; try discriminate;
    try reflexivity.
  - injection Heq as H1 H2.
    rewrite (chunk_inj1 a a' H1 H2). reflexivity.
  - injection Heq as _ _ H3. symmetry in H3.
    destruct (proj1 (proj2 (pad_third b' x00)) H3).
  - injection Heq as _ _ H3 _. symmetry in H3.
    destruct (proj1 (pad_third b' c') H3).
  - injection Heq as _ _ H3.
    destruct (proj1 (proj2 (pad_third b x00)) H3).
  - injection Heq as H1 H2 H3.
    destruct (chunk_inj2 a b a' b' H1 H2 H3) as (-> & ->). reflexivity.
  - injection Heq as _ _ _ H4. symmetry in H4.
    destruct (proj2 (proj2 (pad_third x00 c')) H4).
  - injection Heq as _ _ H3 _.
    destruct (proj1 (pad_third b c) H3).
  - injection Heq as _ _ _ H4.
    destruct (proj2 (proj2 (pad_third x00 c)) H4).
  - injection Heq as H1 H2 H3 H4 Hrest.
    destruct (chunk_inj a b c a' b' c') as (-> & -> & ->); auto.
    rewrite (IH bs' Hrest). reflexivity.
Qed.

(** ** The statements at work on a sample session

    The sample disk holds a decodable image [/scans/knee.png] and a text
    file [/scans/notes.txt]; the sample label has the 800x600 image
    loaded. *)

#[local] Existing Instance sample_platform.

Lemma current_qrect_within_image_witness :
  (0 <= 10 <= 800 /\ 0 <= 10 <= 600) /\
  exists rect,
    ImageLabel._current_qrect (sample_label (Some (QPoint.mk 10 10))) =
      Ok rect /\
    0 <= QRect.x1 rect <= QRect.x2 rect /\
    QRect.x2 rect <= 800 /\
    0 <= QRect.y1 rect <= QRect.y2 rect /\
    QRect.y2 rect <= 600.
Proof.
  split; [lia|].
  apply (current_qrect_within_image (sample_label (Some (QPoint.mk 10 10)))
           (QPixmap.mk 800 600) (QPoint.mk 10 10));
    [reflexivity | reflexivity | simpl; lia | simpl; lia].
Defined.

Lemma current_qrect_full_size_witness :
  (300 <= 400 <= 800 - 300 /\ 300 <= 300 <= 600 - 300) /\
  exists rect,
    ImageLabel._current_qrect (sample_label (Some (QPoint.mk 400 300))) =
      Ok rect /\
    QRect.x2 rect - QRect.x1 rect = 600 /\
    QRect.y2 rect - QRect.y1 rect = 600.
Proof.
  split; [lia|].
  apply (current_qrect_full_size (sample_label (Some (QPoint.mk 400 300)))
           (QPixmap.mk 800 600) (QPoint.mk 400 300));
    [reflexivity | reflexivity | simpl; lia | simpl; lia].
Defined.

Lemma load_image_failure_atomic_witness :
  exists self',
    ImageLabel.load_image sample_disk "/scans/notes.txt"
      (sample_label (Some (QPoint.mk 10 10))) =
      (Raise (ValueError "Cannot load image: /scans/notes.txt"), self') /\
    ImageLabel._pixmap self' = Some (QPixmap.mk 800 600) /\
    ImageLabel.image_path self' = Some "/scans/knee.png"%string /\
    ImageLabel.center_point self' = Some (QPoint.mk 10 10).
Proof.
  apply (load_image_failure_atomic sample_disk "/scans/notes.txt"
           ["h"; "i"]%byte (sample_label (Some (QPoint.mk 10 10))));
    reflexivity.
Defined.

Lemma save_json_without_image_witness :
  exists w',
    MainWindow.save_json
      {| MainWindow.image_label := ImageLabel.__init__;
         MainWindow.image_path := None |}
      (sample_world ["/out/knee.json"%string]) =
      (Ok tt,
       {| MainWindow.image_label := ImageLabel.__init__;
          MainWindow.image_path := None |}, w') /\
    files w' = sample_disk /\
    answers w' = ["/out/knee.json"%string] /\
    emitted (sample_world ["/out/knee.json"%string]) w' =
      [Warning "提示" "请先打开图片！"].
Proof.
  apply (save_json_without_image
           {| MainWindow.image_label := ImageLabel.__init__;
              MainWindow.image_path := None |}
           (sample_world ["/out/knee.json"%string])).
  reflexivity.
Defined.

Lemma save_json_without_center_witness :
  (forall label : ImageLabel.t,
     ImageLabel.center_point label = None ->
     ImageLabel.rectangle_points label = Ok None) /\
  exists w',
    MainWindow.save_json (sample_window None)
      (sample_world ["/out/knee.json"%string]) =
      (Ok tt, sample_window None, w') /\
    files w' = sample_disk /\
    answers w' = ["/out/knee.json"%string] /\
    emitted (sample_world ["/out/knee.json"%string]) w' =
      [Warning "提示" "请在图像上点击以选择中心点！"].
Proof.
  apply (save_json_without_center (sample_window None)
           (sample_world ["/out/knee.json"%string]) (QPixmap.mk 800 600));
    reflexivity.
Defined.

Lemma load_image_clears_center_witness :
  ImageLabel.center_point (sample_label None) = None /\
  exists w',
    MainWindow.save_json (sample_window None) (sample_world []) =
      (Ok tt, sample_window None, w') /\
    files w' = files (sample_world []) /\
    emitted (sample_world []) w' =
      [Warning "提示" "请在图像上点击以选择中心点！"].
Proof.
  destruct (load_image_clears_center sample_disk "/scans/knee.png"
              (sample_label (Some (QPoint.mk 10 10))) (sample_label None))
    as (Hcenter & Hsave & _); [vm_compute; reflexivity|].
  split; [exact Hcenter|].
  exact (Hsave (sample_window None) (sample_world []) eq_refl).
Defined.

Lemma sample_session_reachable :
  reachable (sample_window (Some (QPoint.mk 10 10))) (sample_world []).
Proof.
  apply (reach_step
           (MousePress {| button := LeftButton; pos := QPoint.mk 10 10 |})
           (sample_window None) (sample_world []) (Ok tt));
    [|reflexivity].
  apply (reach_main ["labelmed"%string]
           (sample_world ["/scans/knee.png"%string]) (Ok tt)).
  vm_compute. reflexivity.
Defined.

Lemma center_needs_image_witness :
  exists pm,
    ImageLabel._pixmap (sample_label (Some (QPoint.mk 10 10))) = Some pm /\
    ImageLabel.pixmap_size (sample_label (Some (QPoint.mk 10 10))) =
      (QPixmap.width pm, QPixmap.height pm) /\
    1 <= QPixmap.width pm /\ 1 <= QPixmap.height pm.
Proof.
  destruct (center_needs_image (sample_window (Some (QPoint.mk 10 10)))
              (sample_world []) sample_session_reachable)
    as (_ & _ & Hcenter).
  exact (Hcenter (QPoint.mk 10 10) eq_refl).
Defined.

Lemma save_json_document_witness :
  exists d shape,
    In (JsonDump "/out/knee.json" d)
       (emitted (sample_world ["/out/knee.json"%string])
          (MainWindow.save_json (sample_window (Some (QPoint.mk 10 10)))
             (sample_world ["/out/knee.json"%string])).2) /\
    get "version" d = Some (JStr "5.8.3") /\
    get "shapes" d = Some (JList [shape]) /\
    get "points" shape = Some (json_points [[0; 0]; [310; 310]]) /\
    get "imagePath" d = Some (JStr "knee.png") /\
    get "imageData" d = Some (JStr "UE5H") /\
    get "imageWidth" d = Some (JInt 800) /\
    get "imageHeight" d = Some (JInt 600).
Proof.
  pose (window := sample_window (Some (QPoint.mk 10 10))).
  pose (w := sample_world ["/out/knee.json"%string]).
  pose (d := MainWindow.data [[0; 0]; [310; 310]] "/scans/knee.png" "UE5H"
               800 600).
  assert (Hin : In (JsonDump "/out/knee.json" d)
                  (emitted w (MainWindow.save_json window w).2))
    by (vm_compute; left; reflexivity).
  destruct (save_json_document window
              (MainWindow.save_json window w).1.2 w
              (MainWindow.save_json window w).2
              (MainWindow.save_json window w).1.1 "/out/knee.json" d)
    as (pm & c & image_file & bytes & points & shape & Hpm & Hc & Hpath &
        Hfile & Hpoints & Hversion & _ & Hshapes & _ & Hpts & _);
    [destruct (MainWindow.save_json window w) as [[? ?] ?]; reflexivity
    | exact Hin |].
  exists d. eexists. split; [exact Hin|].
  repeat split; reflexivity.
Defined.

(** *** The label and the box *)


Lemma current_qrect_in_int_witness :
  in_int 0 /\ in_int 0 /\ in_int 310 /\ in_int 310.
Proof.
  apply (current_qrect_in_int (sample_label (Some (QPoint.mk 10 10)))
           (QPixmap.mk 800 600) (QPoint.mk 10 10)
           (QRect.mk 0 0 310 310));
    first [reflexivity | unfold in_int; simpl; lia].
Defined.

Lemma current_qrect_around_center_witness :
  exists rect,
    ImageLabel._current_qrect (sample_label (Some (QPoint.mk 10 10))) =
      Ok rect /\
    QRect.x1 rect <= 10 <= QRect.x2 rect /\
    QRect.y1 rect <= 10 <= QRect.y2 rect /\
    QRect.x2 rect - QRect.x1 rect <= 600 /\
    QRect.y2 rect - QRect.y1 rect <= 600.
Proof.
  apply (current_qrect_around_center (sample_label (Some (QPoint.mk 10 10)))
           (QPixmap.mk 800 600) (QPoint.mk 10 10));
    [reflexivity | reflexivity | simpl; lia | simpl; lia].
Defined.


(** *** Loading and the Open slot *)

Lemma load_image_failure_cases_witness :
  ValueError "Cannot load image: /scans/missing.png" =
    ValueError ("Cannot load image: " ++ "/scans/missing.png") /\
  sample_label None = sample_label None /\
  (sample_disk !! "/scans/missing.png"%string = None \/
   exists bytes,
     sample_disk !! "/scans/missing.png"%string = Some bytes /\
     (decode_image bytes = None \/
      exists width height,
        decode_image bytes = Some (width, height) /\
        (width <= 0 \/ height <= 0))).
Proof.
  apply (load_image_failure_cases sample_disk "/scans/missing.png"
           (sample_label None) (sample_label None)).
  vm_compute. reflexivity.
Defined.

Lemma open_image_frame_witness :
  Ok tt = Ok tt /\
  files (emit (Critical "加载失败" "Cannot load image: /scans/notes.txt")
           (sample_world [])) =
    files (sample_world ["/scans/notes.txt"%string]) /\
  answers (emit (Critical "加载失败" "Cannot load image: /scans/notes.txt")
             (sample_world [])) =
    tail (answers (sample_world ["/scans/notes.txt"%string])) /\
  MainWindow.image_path (sample_window None) =
    MainWindow.image_path (sample_window None) /\
  (forall p d,
     ~ In (JsonDump p d)
         (emitted (sample_world ["/scans/notes.txt"%string])
            (emit (Critical "加载失败" "Cannot load image: /scans/notes.txt")
               (sample_world [])))).
Proof.
  apply (open_image_frame (sample_window None) (sample_window None)
           (sample_world ["/scans/notes.txt"%string])
           (emit (Critical "加载失败" "Cannot load image: /scans/notes.txt")
              (sample_world []))
           (Ok tt)).
  vm_compute. reflexivity.
Defined.

Lemma open_image_cancelled_witness :
  MainWindow.open_image (sample_window (Some (QPoint.mk 10 10)))
    (sample_world []) =
    (Ok tt, sample_window (Some (QPoint.mk 10 10)), sample_world []).
Proof.
  apply (open_image_cancelled (sample_window (Some (QPoint.mk 10 10)))
           (sample_world [])).
  left. reflexivity.
Defined.

Lemma open_image_reports_failure_witness :
  MainWindow.open_image (sample_window (Some (QPoint.mk 10 10)))
    (sample_world ["/scans/missing.png"%string]) =
    (Ok tt, sample_window (Some (QPoint.mk 10 10)),
     {| files := sample_disk; answers := [];
        effects :=
          [Critical "加载失败" "Cannot load image: /scans/missing.png"] |}).
Proof.
  apply (open_image_reports_failure (sample_window (Some (QPoint.mk 10 10)))
           (sample_world ["/scans/missing.png"%string])
           "/scans/missing.png" []);
    [reflexivity | discriminate | vm_compute; reflexivity].
Defined.

Lemma open_image_installs_witness :
  exists window',
    MainWindow.open_image (sample_window (Some (QPoint.mk 10 10)))
      (sample_world ["/scans/knee.png"%string]) =
      (Ok tt, window', sample_world []) /\
    MainWindow.image_label window' = sample_label None /\
    ImageLabel.rectangle_points (MainWindow.image_label window') = Ok None.
Proof.
  apply (open_image_installs (sample_window (Some (QPoint.mk 10 10)))
           (sample_world ["/scans/knee.png"%string]) "/scans/knee.png" []
           ["P"; "N"; "G"]%byte 800 600);
    first [reflexivity | discriminate | lia | vm_compute; reflexivity].
Defined.

(** *** The Save slot *)

Lemma origin_click_not_exported_witness :
  ImageLabel.center_point
    (ImageLabel.mousePressEvent
       {| button := LeftButton; pos := QPoint.mk 0 0 |} (sample_label None)) =
    Some (QPoint.mk 0 0) /\
  ImageLabel.rectangle_points
    (ImageLabel.mousePressEvent
       {| button := LeftButton; pos := QPoint.mk 0 0 |} (sample_label None)) =
    Ok None.
Proof.
  destruct (origin_click_not_exported (sample_window None)
              (sample_world ["/out/knee.json"%string]) (QPixmap.mk 800 600)
              eq_refl) as (Hcenter & Hpoints & _).
  split; [exact Hcenter | exact Hpoints].
Defined.

Lemma save_json_cancelled_witness :
  MainWindow.save_json (sample_window (Some (QPoint.mk 10 10)))
    (sample_world [""%string]) =
    (Ok tt, sample_window (Some (QPoint.mk 10 10)), sample_world []).
Proof.
  apply (save_json_cancelled (sample_window (Some (QPoint.mk 10 10)))
           (sample_world [""%string]) (QPixmap.mk 800 600) (QPoint.mk 10 10)
           "/scans/knee.png");
    [reflexivity | reflexivity | reflexivity | reflexivity |].
  right. exists []. reflexivity.
Defined.

Lemma save_json_image_missing_witness :
  MainWindow.save_json (sample_window (Some (QPoint.mk 10 10)))
    {| files := ∅; answers := ["/out/knee.json"%string]; effects := [] |} =
    (Raise (FileNotFoundError "/scans/knee.png"),
     sample_window (Some (QPoint.mk 10 10)),
     {| files := ∅; answers := []; effects := [] |}).
Proof.
  apply (save_json_image_missing (sample_window (Some (QPoint.mk 10 10)))
           {| files := ∅; answers := ["/out/knee.json"%string];
              effects := [] |}
           (QPixmap.mk 800 600) (QPoint.mk 10 10)
           "/scans/knee.png" "/out/knee.json" []);
    first [reflexivity | discriminate].
Defined.

Lemma save_json_unwritable_witness :
  @MainWindow.save_json locked_platform
    (sample_window (Some (QPoint.mk 10 10)))
    (sample_world ["/locked/knee.json"%string]) =
    (Raise (OSError "/locked/knee.json"),
     sample_window (Some (QPoint.mk 10 10)), sample_world []).
Proof.
  apply (@save_json_unwritable locked_platform
           (sample_window (Some (QPoint.mk 10 10)))
           (sample_world ["/locked/knee.json"%string])
           (QPixmap.mk 800 600) (QPoint.mk 10 10)
           "/scans/knee.png" "/locked/knee.json" [] ["P"; "N"; "G"]%byte);
    first [reflexivity | discriminate | vm_compute; reflexivity].
Defined.

Lemma save_json_touches_one_file_witness :
  files
    (MainWindow.save_json (sample_window (Some (QPoint.mk 10 10)))
       (sample_world ["/out/knee.json"%string])).2
    !! "/scans/knee.png"%string =
  files (sample_world ["/out/knee.json"%string]) !! "/scans/knee.png"%string.
Proof.
  pose (window := sample_window (Some (QPoint.mk 10 10))).
  pose (w := sample_world ["/out/knee.json"%string]).
  apply (save_json_touches_one_file window
           (MainWindow.save_json window w).1.2 w
           (MainWindow.save_json window w).2
           (MainWindow.save_json window w).1.1 "/scans/knee.png").
  - destruct (MainWindow.save_json window w) as [[? ?] ?]. reflexivity.
  - intros rest. discriminate.
Defined.

Lemma save_json_then_cancel_witness :
  MainWindow.save_json (sample_window (Some (QPoint.mk 10 10)))
    (sample_world ["/out/knee.json"%string]) =
    (Ok tt, sample_window (Some (QPoint.mk 10 10)),
     {| files :=
          <["/out/knee.json"%string :=
              json_dump
                (MainWindow.data [[0; 0]; [310; 310]] "/scans/knee.png"
                   "UE5H" 800 600)]> sample_disk;
        answers := [];
        effects :=
          [JsonDump "/out/knee.json"
             (MainWindow.data [[0; 0]; [310; 310]] "/scans/knee.png"
                "UE5H" 800 600);
           Information "完成" "标签已保存至 /out/knee.json"] |}).
Proof.
  apply (save_json_then_cancel (sample_window (Some (QPoint.mk 10 10)))
           (sample_world ["/out/knee.json"%string])
           (QPixmap.mk 800 600) (QPoint.mk 10 10)
           "/scans/knee.png" "/out/knee.json" ["P"; "N"; "G"]%byte);
    first [reflexivity | discriminate | vm_compute; reflexivity].
Defined.

Lemma save_json_then_next_image_witness :
  exists window' w',
    MainWindow.save_json (sample_window (Some (QPoint.mk 10 10)))
      (sample_world ["/out/knee.json"; "/scans/knee.png"]%string) =
      (Ok tt, window', w') /\
    MainWindow.image_label window' = sample_label None /\
    answers w' = [] /\
    files w' =
      <["/out/knee.json"%string :=
          json_dump
            (MainWindow.data [[0; 0]; [310; 310]] "/scans/knee.png"
               "UE5H" 800 600)]> sample_disk /\
    emitted
      (sample_world ["/out/knee.json"; "/scans/knee.png"]%string) w' =
      [JsonDump "/out/knee.json"
         (MainWindow.data [[0; 0]; [310; 310]] "/scans/knee.png"
            "UE5H" 800 600);
       Information "完成" "标签已保存至 /out/knee.json"].
Proof.
  apply (save_json_then_next_image (sample_window (Some (QPoint.mk 10 10)))
           (sample_world ["/out/knee.json"; "/scans/knee.png"]%string)
           (QPixmap.mk 800 600) (QPoint.mk 10 10)
           "/scans/knee.png" "/out/knee.json" "/scans/knee.png" []
           ["P"; "N"; "G"]%byte ["P"; "N"; "G"]%byte 800 600);
    first [reflexivity | discriminate | lia | vm_compute; reflexivity].
Defined.

Lemma save_json_points_witness :
  exists pm c shape,
    ImageLabel._pixmap (sample_label (Some (QPoint.mk 10 10))) = Some pm /\
    ImageLabel.center_point (sample_label (Some (QPoint.mk 10 10))) =
      Some c /\
    (QPoint.x c <> 0 \/ QPoint.y c <> 0) /\
    get "shapes"
      (MainWindow.data [[0; 0]; [310; 310]] "/scans/knee.png" "UE5H"
         800 600) = Some (JList [shape]) /\
    get "points" shape =
      Some (JList
              [JList [JFloat (Z.max 0 (QPoint.x c - 300));
                      JFloat (Z.max 0 (QPoint.y c - 300))];
               JList [JFloat (Z.min (QPixmap.width pm) (QPoint.x c + 300));
                      JFloat (Z.min (QPixmap.height pm) (QPoint.y c + 300))]]).
Proof.
  pose (window := sample_window (Some (QPoint.mk 10 10))).
  pose (w := sample_world ["/out/knee.json"%string]).
  apply (save_json_points window
           (MainWindow.save_json window w).1.2 w
           (MainWindow.save_json window w).2
           (MainWindow.save_json window w).1.1 "/out/knee.json"
           (MainWindow.data [[0; 0]; [310; 310]] "/scans/knee.png" "UE5H"
              800 600)).
  - destruct (MainWindow.save_json window w) as [[? ?] ?]. reflexivity.
  - vm_compute. left. reflexivity.
Defined.

(** *** Sessions and start-up *)

Lemma save_json_errors_witness :
  ImageLabel._pixmap (sample_label (Some (QPoint.mk 10 10))) = None <->
  ImageLabel.image_path (sample_label (Some (QPoint.mk 10 10))) = None.
Proof.
  destruct (save_json_errors (sample_window (Some (QPoint.mk 10 10)))
              (sample_world []) sample_session_reachable) as (Hiff & _).
  exact Hiff.
Defined.

Lemma main_preload_failure_witness :
  main ["labelmed"; "/scans/notes.txt"]%string
    (sample_world ["/scans/knee.png"%string]) =
    (Raise (ValueError "Cannot load image: /scans/notes.txt"), None,
     sample_world ["/scans/knee.png"%string]).
Proof.
  apply (main_preload_failure "labelmed" "/scans/notes.txt"
           (sample_world ["/scans/knee.png"%string]));
    [discriminate | vm_compute; reflexivity].
Defined.

Lemma main_starts_empty_witness :
  main ["labelmed"; "/scans/knee.png"; "extra"]%string (sample_world []) =
    (Ok tt,
     Some {| MainWindow.image_label := ImageLabel.__init__;
             MainWindow.image_path := None |},
     sample_world []).
Proof.
  destruct (main_starts_empty
              ["labelmed"; "/scans/knee.png"; "extra"]%string
              (sample_world [])) as (Hmain & _);
    [simpl; lia | left; reflexivity |].
  exact Hmain.
Defined.

Lemma main_preloads_witness :
  main ["labelmed"; "/scans/knee.png"]%string (sample_world []) =
    (Ok tt,
     Some {| MainWindow.image_label := sample_label None;
             MainWindow.image_path := Some "/scans/knee.png"%string |},
     sample_world []).
Proof.
  apply (main_preloads "labelmed" "/scans/knee.png" (sample_world [])
           ["P"; "N"; "G"]%byte 800 600);
    first [discriminate | lia | left; reflexivity | vm_compute; reflexivity].
Defined.

(** *** File names and the embedded image *)

Lemma name_is_last_component_witness :
  Path.name ("/scans" ++ "/" ++ "knee.png") = "knee.png"%string.
Proof.
  apply (name_is_last_component "/scans" "knee.png");
    [reflexivity | discriminate | discriminate].
Defined.

Lemma suggested_json_path_plain_witness :
  suggested_json_path ("/scans" ++ "/" ++ "knee" ++ ".png") =
    ("/Users/manishaqian/Documents/labelPZY/d/" ++ "knee" ++ ".json")%string.
Proof.
  apply (suggested_json_path_plain "/scans" "knee" ".png");
    [reflexivity | reflexivity | left; reflexivity].
Defined.

Lemma b64encode_inj_witness : ["P"; "N"; "G"]%byte = ["P"; "N"; "G"]%byte.
Proof. apply (b64encode_inj ["P"; "N"; "G"]%byte ["P"; "N"; "G"]%byte). reflexivity. Defined.
